(** * Monsters: the Monster group fact module and its presentation utilities

    A shallow embedding of [monster_group.py] and [monster_utils.py].

    - Python [int] is [Z] (arbitrary precision, no wrap-around).
    - Python [float] is IEEE 754 binary64, taken from the Standard Library's
      [SpecFloat] with [prec = 53] and [emax = 1024].
    - Python [dict] literals are association lists in insertion order, which
      is the order [items()], [keys()] and [values()] iterate in.
    - Python [str] is [string]; the two non-ASCII characters of the source
      are kept as their UTF-8 bytes.
    - A call that can raise returns [result]; a function that prints
      returns what it wrote to standard output.
    - [str] and [format_comma] render an [int] of any size; the module
      [Checked] has the functions that format unbounded [int]s with
      CPython's limit on the number of digits.
    - The module [Methods] has the methods of [MonsterGroup] as trees of
      the reads, assignments and allocations they perform. *)

From Stdlib Require Import ZArith List String Ascii Bool Lia Permutation.
From Stdlib Require Import DecimalString.
From Stdlib Require Import Floats.SpecFloat.
Import ListNotations.

Local Open Scope string_scope.
Local Open Scope Z_scope.

(** ** Exceptions and the error monad *)

Inductive exn : Type :=
| ValueError
| OverflowError
| ZeroDivisionError
| KeyError
| IndexError.

Inductive result (A : Type) : Type :=
| Ok (a : A)
| Raise (e : exn).

Arguments Ok {A} a.
Arguments Raise {A} e.

Definition bind {A B : Type} (r : result A) (k : A -> result B) : result B :=
  match r with
  | Ok a => k a
  | Raise e => Raise e
  end.

Notation "x <- c ;; k" := (bind c (fun x => k))
  (at level 61, c at next level, right associativity).

(** ** Built-in formatting of [int] *)

(** [str(n)]. *)
Definition str (n : Z) : string := NilZero.string_of_int (Z.to_int n).

(** Thousands separators, on the digits taken least significant first. *)
Fixpoint group3 (digits : list ascii) : list ascii :=
  match digits with
  | a :: b :: c :: ((_ :: _) as rest) => a :: b :: c :: ","%char :: group3 rest
  | _ => digits
  end.

(** [format(n, ",")], the [{n:,}] of an f-string. *)
Definition format_comma (n : Z) : string :=
  let digits := list_ascii_of_string (str (Z.abs n)) in
  let grouped := string_of_list_ascii (rev (group3 (rev digits))) in
  if n <? 0 then "-" ++ grouped else grouped.

(** [s.rjust(width, "0")] for a digit string. *)
Fixpoint zeros (k : nat) : string :=
  match k with
  | O => ""
  | S k' => "0" ++ zeros k'
  end.

Definition zfill (width : nat) (s : string) : string :=
  zeros (width - String.length s) ++ s.

(** ** Python [float]: IEEE 754 binary64 *)

Module Float.

Definition prec : Z := 53.
Definition emax : Z := 1024.

Definition float : Type := spec_float.

Definition sign_str (s : bool) : string := if s then "-" else "".

(** [float(n)]; CPython rounds to nearest, ties to even, and raises
    [OverflowError] when the result is not finite. *)
Definition of_int (n : Z) : result float :=
  match binary_normalize prec emax n 0 false with
  | S754_infinity _ => Raise OverflowError
  | x => Ok x
  end.

(** An [int] as an unrounded operand of a division. *)
Definition exact (n : Z) : float :=
  match n with
  | Z0 => S754_zero false
  | Zpos p => S754_finite false p 0
  | Zneg p => S754_finite true p 0
  end.

(** [a / b] on two [int]s: the correctly rounded quotient of the exact
    integers. *)
Definition int_true_divide (a b : Z) : result float :=
  if b =? 0 then Raise ZeroDivisionError
  else match SFdiv prec emax (exact a) (exact b) with
       | S754_infinity _ => Raise OverflowError
       | x => Ok x
       end.

Definition is_zero (x : float) : bool :=
  match x with
  | S754_zero _ => true
  | _ => false
  end.

(** [x / y] on two [float]s. *)
Definition div (x y : float) : result float :=
  if is_zero y then Raise ZeroDivisionError else Ok (SFdiv prec emax x y).

(** [x * y] on two [float]s. *)
Definition mul (x y : float) : float := SFmul prec emax x y.

(** [x + y] on two [float]s. *)
Definition add (x y : float) : float := SFadd prec emax x y.

(** [int(x)]: truncation toward zero. *)
Definition to_int (x : float) : result Z :=
  match x with
  | S754_nan => Raise ValueError
  | S754_infinity _ => Raise OverflowError
  | S754_zero _ => Ok 0
  | S754_finite s m e =>
      let a := if 0 <=? e then Zpos m * 2 ^ e else Zpos m / 2 ^ (- e) in
      Ok (if s then - a else a)
  end.

(** Round [num / den] to the nearest integer, ties to even. *)
Definition round_half_even (num den : Z) : Z :=
  let q := num / den in
  let r := num mod den in
  match 2 * r ?= den with
  | Lt => q
  | Gt => q + 1
  | Eq => if Z.even q then q else q + 1
  end.

(** The magnitude [m * 2^e] as a fraction. *)
Definition numerator (m : positive) (e : Z) : Z :=
  if 0 <=? e then Zpos m * 2 ^ e else Zpos m.

Definition denominator (e : Z) : Z :=
  if 0 <=? e then 1 else 2 ^ (- e).

(** [q] counts units of [10^-nd]. *)
Definition fixed_digits (nd : nat) (q : Z) : string :=
  let scale := 10 ^ Z.of_nat nd in
  match nd with
  | O => str q
  | _ => str (q / scale) ++ "." ++ zfill nd (str (q mod scale))
  end.

(** [format(x, ".<nd>f")]. The decimal expansion is that of the exact
    binary value, rounded to [nd] places, ties to even. *)
Definition format_f (nd : nat) (x : float) : string :=
  match x with
  | S754_nan => "nan"
  | S754_infinity s => sign_str s ++ "inf"
  | S754_zero s => sign_str s ++ fixed_digits nd 0
  | S754_finite s m e =>
      let scale := 10 ^ Z.of_nat nd in
      sign_str s ++
      fixed_digits nd (round_half_even (numerator m e * scale) (denominator e))
  end.

(** The largest [d], searched downward from [hi], with
    [10^d <= num / den]. *)
Fixpoint decimal_exponent (fuel : nat) (hi : Z) (num den : Z) : Z :=
  match fuel with
  | O => hi
  | S fuel' =>
      if (if 0 <=? hi then den * 10 ^ hi <=? num else den <=? num * 10 ^ (- hi))
      then hi
      else decimal_exponent fuel' (hi - 1) num den
  end.

(** The largest [d] with [10^d <= m * 2^e]: the search starts above the
    binary logarithm of the value and has room to reach below it. *)
Definition floor_log10 (m : positive) (e : Z) : Z :=
  let num := numerator m e in
  let den := denominator e in
  let hi := Z.max 0 (Z.log2 num - Z.log2 den + 1) in
  let lo := Z.min 0 (Z.log2 num - Z.log2 den - 1) in
  decimal_exponent (Z.to_nat (hi - lo)) hi num den.

(** [format(x, ".<nd>e")]. *)
Definition format_e (nd : nat) (x : float) : string :=
  let exp_str (d : Z) :=
    "e" ++ (if d <? 0 then "-" else "+") ++ zfill 2 (str (Z.abs d)) in
  match x with
  | S754_nan => "nan"
  | S754_infinity s => sign_str s ++ "inf"
  | S754_zero s => sign_str s ++ fixed_digits nd 0 ++ exp_str 0
  | S754_finite s m e =>
      let num := numerator m e in
      let den := denominator e in
      let d := floor_log10 m e in
      let scale := 10 ^ Z.of_nat nd in
      let q :=
        if 0 <=? d then round_half_even (num * scale) (den * 10 ^ d)
        else round_half_even (num * scale * 10 ^ (- d)) den in
      let '(q, d) := if q =? 10 * scale then (scale, d + 1) else (q, d) in
      sign_str s ++ fixed_digits nd q ++ exp_str d
  end.

End Float.

(** ** [monster_group.py] *)

Module MonsterGroup.

(** Class attribute [ORDER]. *)
Definition ORDER : Z :=
  808017424794512875886459904961710757005754368000000000.

(** Instance attributes set by [__init__]. [_generators] is [None]. *)
Record t : Type := mk {
  _generators : option (list string);
  _name : string;
  _symbol : string
}.

Definition __init__ : t :=
  {| _generators := None; _name := "Monster"; _symbol := "M" |}.

Definition order (self : t) : Z := ORDER.
Definition name (self : t) : string := _name self.
Definition symbol (self : t) : string := _symbol self.
Definition is_sporadic (self : t) : bool := true.
Definition is_simple (self : t) : bool := true.

(** The dict literal of [get_factorization], in insertion order. *)
Definition get_factorization (self : t) : list (Z * Z) :=
  [ (2, 46); (3, 20); (5, 9); (7, 6); (11, 2); (13, 3); (17, 1); (19, 1);
    (23, 1); (29, 1); (31, 1); (41, 1); (47, 1); (59, 1); (71, 1) ].

(** The loop of [verify_order]:
    [for prime, power in items: calculated_order *= prime ** power]. *)
Definition accumulate (items : list (Z * Z)) (calculated_order : Z) : Z :=
  fold_left (fun acc '(prime, power) => acc * prime ^ power)
            items calculated_order.

Definition verify_order (self : t) : bool :=
  let factorization := get_factorization self in
  let calculated_order := accumulate factorization 1 in
  calculated_order =? ORDER.

Definition get_maximal_subgroups_info (self : t) : list string :=
  [ "2^1+24.Co1 (Baby Monster normalizer)";
    "2^2+11+22.(M24 × S3)";
    "3^1+12.2.Suz.2";
    "2^5+10+20.(S3 × L5(2))";
    "5^1+6.2.J2.4";
    "7^1+4.(3 × 2S7)";
    "11^1+2.(5 × 2S5)";
    "13^1+2.(3 × 4S4)";
    "(D10 × HN).2";
    "2^10+16.O10^+(2)" ].

Definition get_conjugacy_classes_count (self : t) : Z := 194.

(** Values stored in the [Dict[str, Any]] of [get_character_table_info]. *)
#[warnings="-register-all"]
Inductive pyval : Type :=
| PyInt (n : Z)
| PyBool (b : bool)
| PyEllipsis
| PyList (l : list pyval).

Definition get_character_table_info (self : t) : list (string * pyval) :=
  [ ("irreducible_representations", PyInt 194);
    ("smallest_faithful_representation", PyInt 196883);
    ("moonshine_connection", PyBool true);
    ("j_invariant_coefficients",
     PyList [PyInt 196884; PyInt 21493760; PyInt 864299970; PyEllipsis]) ].

(** [d[key]] on a dict literal with distinct keys, [None] for a [KeyError]. *)
Fixpoint getitem {V : Type} (d : list (string * V)) (key : string) : option V :=
  match d with
  | [] => None
  | (k, v) :: d' => if String.eqb k key then Some v else getitem d' key
  end.

Definition keys {K V : Type} (d : list (K * V)) : list K := map fst d.
Definition values {K V : Type} (d : list (K * V)) : list V := map snd d.

(** The query methods of the class, each returning its value together
    with the instance as the call leaves it. None of the method bodies
    assigns to an attribute of [self]. *)
Inductive query : Type :=
| Qorder | Qname | Qsymbol | Qis_sporadic | Qis_simple
| Qget_factorization | Qverify_order | Qget_maximal_subgroups_info
| Qget_conjugacy_classes_count | Qget_character_table_info.

Definition query_result (q : query) : Type :=
  match q with
  | Qorder => Z
  | Qname => string
  | Qsymbol => string
  | Qis_sporadic => bool
  | Qis_simple => bool
  | Qget_factorization => list (Z * Z)
  | Qverify_order => bool
  | Qget_maximal_subgroups_info => list string
  | Qget_conjugacy_classes_count => Z
  | Qget_character_table_info => list (string * pyval)
  end.

Definition call (q : query) (self : t) : query_result q * t :=
  match q with
  | Qorder => (order self, self)
  | Qname => (name self, self)
  | Qsymbol => (symbol self, self)
  | Qis_sporadic => (is_sporadic self, self)
  | Qis_simple => (is_simple self, self)
  | Qget_factorization => (get_factorization self, self)
  | Qverify_order => (verify_order self, self)
  | Qget_maximal_subgroups_info => (get_maximal_subgroups_info self, self)
  | Qget_conjugacy_classes_count => (get_conjugacy_classes_count self, self)
  | Qget_character_table_info => (get_character_table_info self, self)
  end.

End MonsterGroup.

Module MonsterElement.

Record t : Type := mk {
  element_id : string;
  group : MonsterGroup.t
}.

(** [self.element_id = element_id or "e"]: [None] and the empty string
    are the falsy arguments. *)
Definition __init__ (element_id : option string) : t :=
  {| element_id :=
       match element_id with
       | None => "e"
       | Some "" => "e"
       | Some s => s
       end;
     group := MonsterGroup.__init__ |}.

Definition is_identity (self : t) : bool :=
  String.eqb (element_id self) "e".

(** [Optional[int]]: [None] is Python's [None]. *)
Definition order (self : t) : option Z :=
  if is_identity self then Some 1 else None.

Definition conjugacy_class (self : t) : option string :=
  if is_identity self then Some "1A" else None.

End MonsterElement.

(** ** [monster_utils.py] *)

Module MonsterUtils.

Import Float.

(** A Python number that is either an [int] or a [float]. *)
Inductive pynum : Type :=
| PInt (n : Z)
| PFloat (x : float).

(** An [int] literal that binary64 represents exactly, as a [float]. *)
Definition literal (n : Z) : float := binary_normalize prec emax n 0 false.

(** Comparison with the [int] [1]. Python compares an [int] with a
    [float] by value; [1] is exactly [1.0], so the comparison is that of
    floats, and it has no outcome on a NaN. *)
Definition compare_one (a : pynum) : option comparison :=
  match a with
  | PInt n => Some (n ?= 1)
  | PFloat x => SFcompare x (literal 1)
  end.

(** [a > 1], [a == 1] and [a < 1]. *)
Definition gt_one (a : pynum) : bool :=
  match compare_one a with
  | Some Gt => true
  | _ => false
  end.

Definition eq_one (a : pynum) : bool :=
  match compare_one a with
  | Some Eq => true
  | _ => false
  end.

Definition lt_one (a : pynum) : bool :=
  match compare_one a with
  | Some Lt => true
  | _ => false
  end.

(** [n / d] for an [int] [n]. *)
Definition truediv (n : Z) (d : pynum) : result float :=
  match d with
  | PInt k => int_true_divide n k
  | PFloat y => x <- of_int n ;; div x y
  end.

(** [format(a, ".2e")]; an [int] is converted with [float(a)] first. *)
Definition format_2e (a : pynum) : result string :=
  match a with
  | PInt n => x <- of_int n ;; Ok (format_e 2 x)
  | PFloat x => Ok (format_e 2 x)
  end.

(** [math.factorial]. *)
Fixpoint factorial (n : nat) : Z :=
  match n with
  | O => 1
  | S n' => Z.of_nat n * factorial n'
  end.

(** *** [format_large_number]

    The C library's [log10] and [pow] on doubles are not fixed by Python;
    they are parameters of the model. *)

Section Libm.

Variable libm_log10 : float -> float.
Variable libm_pow : float -> float -> float.

(** [math.log10(n)] for an [int]: a [ValueError] unless [n] is positive,
    else [log10] of [float(n)]. When [float(n)] overflows CPython splits
    [n] as [x * 2**e] with [x] in [[0.5, 1)] and returns
    [log10(x) + log10(2.0) * e]. *)
Definition math_log10 (n : Z) : result float :=
  if n <=? 0 then Raise ValueError
  else match of_int n with
       | Ok x => Ok (libm_log10 x)
       | Raise _ =>
           let bits := Z.log2 n + 1 in
           let x := binary_normalize prec emax n (- bits) false in
           let '(x, e) :=
             if SFeqb x (literal 1)
             then (binary_normalize prec emax 1 (-1) false, bits + 1)
             else (x, bits) in
           Ok (add (libm_log10 x) (mul (libm_log10 (literal 2)) (literal e)))
       end.

(** [10 ** exponent]: an [int] for a non-negative exponent, else the
    [float] power, which raises [OverflowError] when it is infinite. *)
Definition pow10 (exponent : Z) : result pynum :=
  if 0 <=? exponent then Ok (PInt (10 ^ exponent))
  else match libm_pow (literal 10) (literal exponent) with
       | S754_infinity _ => Raise OverflowError
       | y => Ok (PFloat y)
       end.

(** [exponent = int(math.log10(n))]. *)
Definition exponent_of (n : Z) : result Z :=
  l <- math_log10 n ;; to_int l.

(** The [if n > 0: ... else: ...] that sets [scientific]. *)
Definition scientific (n : Z) : result string :=
  if 0 <? n then
    exponent <- exponent_of n ;;
    p <- pow10 exponent ;;
    mantissa <- truediv n p ;;
    Ok (format_f 2 mantissa ++ " × 10^" ++ str exponent)
  else Ok "0".

Definition format_large_number (n : Z) : result string :=
  let formatted := format_comma n in
  sci <- scientific n ;;
  Ok (formatted ++ " (≈ " ++ sci ++ ")").

End Libm.

(** *** [compare_group_orders] *)

Definition groups (monster_order : Z) : list (string * list (string * Z)) :=
  [ ("Symmetric S_n groups",
     [ ("S_5", factorial 5); ("S_10", factorial 10); ("S_20", factorial 20) ]);
    ("Sporadic groups",
     [ ("Mathieu M_24", 244823040);
       ("Conway Co_1", 4157776806543360000);
       ("Baby Monster B", 4154781481226426191177580544000000);
       ("Monster M", monster_order) ]) ].

(** [monster_order / order if order != monster_order else 1]. *)
Definition ratio_of (monster_order order : Z) : result pynum :=
  if negb (order =? monster_order)
  then x <- int_true_divide monster_order order ;; Ok (PFloat x)
  else Ok (PInt 1).

(** The [if]/[elif]/[else] that builds [desc]. *)
Definition describe (ratio : pynum) : result string :=
  if gt_one ratio then
    r <- format_2e ratio ;;
    Ok ("Monster is " ++ r ++ " times larger")
  else if eq_one ratio then
    Ok "Same as Monster"
  else
    inv <- truediv 1 ratio ;;
    Ok ("Monster is " ++ format_e 2 inv ++ " times smaller").

Definition triple : Type := string * Z * string.

(** The inner loop, [for name, order in group_dict.items()]. *)
Fixpoint compare_dict (monster_order : Z) (items : list (string * Z))
    (comparisons : list triple) : result (list triple) :=
  match items with
  | [] => Ok comparisons
  | (name, order) :: rest =>
      ratio <- ratio_of monster_order order ;;
      desc <- describe ratio ;;
      compare_dict monster_order rest (comparisons ++ [(name, order, desc)])%list
  end.

(** The outer loop, [for category, group_dict in groups]. *)
Fixpoint compare_groups (monster_order : Z)
    (gs : list (string * list (string * Z)))
    (comparisons : list triple) : result (list triple) :=
  match gs with
  | [] => Ok comparisons
  | (category, group_dict) :: rest =>
      comparisons' <- compare_dict monster_order group_dict comparisons ;;
      compare_groups monster_order rest comparisons'
  end.

Definition compare_group_orders : result (list triple) :=
  let monster_order := MonsterGroup.ORDER in
  compare_groups monster_order (groups monster_order) [].

(** *** [analyze_factorization]

    The function prints: a computation carries the strings it wrote to
    standard output, one per call of [print], in order, and an exception
    keeps what was written before it. *)

Definition nl : string := String (ascii_of_nat 10) EmptyString.

Definition io (A : Type) : Type := list string * result A.

Definition io_ret {A : Type} (a : A) : io A := ([], Ok a).

Definition io_bind {A B : Type} (c : io A) (k : A -> io B) : io B :=
  match c with
  | (written, Ok a) =>
      let '(written', r) := k a in ((written ++ written')%list, r)
  | (written, Raise e) => (written, Raise e)
  end.

Definition lift {A : Type} (r : result A) : io A := ([], r).

(** [print(s, end=e)]; [print(s)] has [e = "\n"]. *)
Definition print_end (s e : string) : io unit := ([s ++ e], Ok tt).

(** The text on standard output. *)
Definition stdout {A : Type} (c : io A) : string := String.concat "" (fst c).

Definition print (s : string) : io unit := print_end s nl.

Notation "x <-- c ;; k" := (io_bind c (fun x => k))
  (at level 61, c at next level, right associativity).
Notation "c ;;; k" := (io_bind c (fun _ => k))
  (at level 61, right associativity).

(** A [for] loop whose body prints. *)
Fixpoint for_each {A : Type} (l : list A) (body : A -> io unit) : io unit :=
  match l with
  | [] => io_ret tt
  | x :: l' => body x ;;; for_each l' body
  end.

(** [s * k] for a string. *)
Fixpoint repeat_str (s : string) (k : nat) : string :=
  match k with
  | O => ""
  | S k' => s ++ repeat_str s k'
  end.

(** [sep.join(l)]. *)
Fixpoint join (sep : string) (l : list string) : string :=
  match l with
  | [] => ""
  | [x] => x
  | x :: l' => x ++ sep ++ join sep l'
  end.

(** [sorted]: a stable sort, here by insertion. *)
Fixpoint insert_sorted {A : Type} (leb : A -> A -> bool) (x : A)
    (l : list A) : list A :=
  match l with
  | [] => [x]
  | y :: l' => if leb x y then x :: l else y :: insert_sorted leb x l'
  end.

Definition sorted {A : Type} (leb : A -> A -> bool) (l : list A) : list A :=
  fold_right (insert_sorted leb) [] l.

(** Tuples of [int]s compare lexicographically. *)
Definition pair_leb (a b : Z * Z) : bool :=
  (fst a <? fst b) || ((fst a =? fst b) && (snd a <=? snd b)).

(** [max(l)]; a [ValueError] on an empty argument. *)
Definition max (l : list Z) : result Z :=
  match l with
  | [] => Raise ValueError
  | x :: l' => Ok (fold_left Z.max l' x)
  end.

(** [l[0]]. *)
Definition first {A : Type} (l : list A) : result A :=
  match l with
  | [] => Raise IndexError
  | x :: _ => Ok x
  end.

(** [d[key]] on a dict with [int] keys. *)
Fixpoint getitem (d : list (Z * Z)) (key : Z) : result Z :=
  match d with
  | [] => Raise KeyError
  | (k, v) :: d' => if k =? key then Ok v else getitem d' key
  end.

(** One entry of [factors]. *)
Definition factor_str (item : Z * Z) : string :=
  let '(prime, power) := item in
  if power =? 1 then str prime else str prime ++ "^" ++ str power.

Section Report.

Variable libm_log10 : float -> float.
Variable libm_pow : float -> float -> float.

(** The body of the last loop. Every power of the table is positive, so
    [prime ** power] is the integer power. *)
Definition contribution_line (factorization : list (Z * Z)) (total_order : Z)
    (prime : Z) : io unit :=
  power <-- lift (getitem factorization prime) ;;
  let contribution := prime ^ power in
  q <-- lift (int_true_divide contribution total_order) ;;
  let percentage := mul q (literal 100) in
  print ("  " ++ str prime ++ "^" ++ str power ++ " contributes "
         ++ format_comma contribution ++ " (" ++ format_f 10 percentage ++ "%)").

Definition analyze_factorization : io unit :=
  let monster := MonsterGroup.__init__ in
  let factorization := MonsterGroup.get_factorization monster in
  print "Monster Group Prime Factorization Analysis" ;;;
  print (repeat_str "=" 45) ;;;
  total <-- lift (format_large_number libm_log10 libm_pow
                    (MonsterGroup.order monster)) ;;
  print (nl ++ "Total order: " ++ total) ;;;
  print_end (nl ++ "Prime factorization: M = ") "" ;;;
  let factors := map factor_str (sorted pair_leb factorization) in
  print (join " × " factors) ;;;
  print (nl ++ "Number of distinct prime factors: "
         ++ str (Z.of_nat (List.length factorization))) ;;;
  largest <-- lift (max (MonsterGroup.keys factorization)) ;;
  print ("Largest prime factor: " ++ str largest) ;;;
  highest <-- lift (max (MonsterGroup.values factorization)) ;;
  p <-- lift (first (map fst
                  (filter (fun '(p, pow) => pow =? highest) factorization))) ;;
  print ("Highest power: " ++ str highest ++ " (for prime " ++ str p ++ ")") ;;;
  print (nl ++ "Contribution of each prime to the total order:") ;;;
  let total_order := MonsterGroup.order monster in
  for_each (sorted Z.leb (MonsterGroup.keys factorization))
           (contribution_line factorization total_order).

End Report.

End MonsterUtils.

(** ** Dict objects and references

    [get_factorization] evaluates a dict display, which creates a new
    dict object on every evaluation. To speak about a caller that mutates
    a dict it was handed, the dict objects live in a store and a call
    returns a reference. *)

Module Store.

Definition dict : Type := list (Z * Z).
Definition ref : Type := nat.
Definition heap : Type := list dict.

Definition alloc (d : dict) (h : heap) : ref * heap :=
  (List.length h, (h ++ [d])%list).

Definition deref (h : heap) (r : ref) : option dict := nth_error h r.

(** [d[k] = v]: an existing key keeps its position, a new key goes last. *)
Fixpoint setitem (d : dict) (k v : Z) : dict :=
  match d with
  | [] => [(k, v)]
  | (k', v') :: d' =>
      if k' =? k then (k', v) :: d' else (k', v') :: setitem d' k v
  end.

(** [d.pop(k, None)]: the entry of [k], when there is one, goes. *)
Definition delitem (d : dict) (k : Z) : dict :=
  filter (fun '(k', _) => negb (k' =? k)) d.

(** What a caller can do to a dict object it holds. *)
Inductive mutation : Type :=
| SetItem (r : ref) (k v : Z)
| DelItem (r : ref) (k : Z)
| Clear (r : ref).

Fixpoint update_at (h : heap) (r : ref) (f : dict -> dict) : heap :=
  match h, r with
  | [], _ => []
  | d :: h', O => f d :: h'
  | d :: h', S r' => d :: update_at h' r' f
  end.

Definition mutate (h : heap) (m : mutation) : heap :=
  match m with
  | SetItem r k v => update_at h r (fun d => setitem d k v)
  | DelItem r k => update_at h r (fun d => delitem d k)
  | Clear r => update_at h r (fun _ => [])
  end.

Definition mutate_all (h : heap) (ms : list mutation) : heap :=
  fold_left mutate ms h.

(** [MonsterGroup.get_factorization] as a call that allocates. *)
Definition get_factorization (self : MonsterGroup.t) (h : heap) : ref * heap :=
  alloc (MonsterGroup.get_factorization self) h.

(** [MonsterGroup.verify_order]: it reads the dict its own call of
    [get_factorization] returned. The value is [None] only for a reference
    that names no object. *)
Definition verify_order (self : MonsterGroup.t) (h : heap)
    : option bool * heap :=
  let '(factorization, h') := get_factorization self h in
  match deref h' factorization with
  | Some items =>
      (Some (MonsterGroup.accumulate items 1 =? MonsterGroup.ORDER), h')
  | None => (None, h')
  end.

End Store.

(** ** Text renderings and [demonstrate_monster_group] *)

Module Rendering.

Import MonsterUtils.

(** [MonsterGroup.__str__] and [MonsterGroup.__repr__]. *)
Definition MonsterGroup__str__ (self : MonsterGroup.t) : string :=
  "Monster Group (M) - Order: " ++ str MonsterGroup.ORDER.

Definition MonsterGroup__repr__ (self : MonsterGroup.t) : string :=
  "MonsterGroup(order=" ++ str MonsterGroup.ORDER ++ ")".

(** [MonsterElement.__str__] and [MonsterElement.__repr__]. *)
Definition MonsterElement__str__ (self : MonsterElement.t) : string :=
  "MonsterElement(" ++ MonsterElement.element_id self ++ ")".

Definition MonsterElement__repr__ (self : MonsterElement.t) : string :=
  "MonsterElement(element_id='" ++ MonsterElement.element_id self ++ "')".

(** [str(b)] for a [bool]. *)
Definition str_bool (b : bool) : string := if b then "True" else "False".

(** [str(v)] for an [Optional[int]] and an [Optional[str]]. *)
Definition str_optional_int (v : option Z) : string :=
  match v with
  | Some n => str n
  | None => "None"
  end.

Definition str_optional_str (v : option string) : string :=
  match v with
  | Some s => s
  | None => "None"
  end.

(** [str(v)] for a value of the character table dict. *)
Fixpoint str_pyval (v : MonsterGroup.pyval) : string :=
  match v with
  | MonsterGroup.PyInt n => str n
  | MonsterGroup.PyBool b => str_bool b
  | MonsterGroup.PyEllipsis => "Ellipsis"
  | MonsterGroup.PyList l => "[" ++ join ", " (map str_pyval l) ++ "]"
  end.

(** [d[key]] on a dict with [str] keys, as an expression that can raise. *)
Definition subscript {V : Type} (d : list (string * V)) (key : string)
    : result V :=
  match MonsterGroup.getitem d key with
  | Some v => Ok v
  | None => Raise KeyError
  end.

Definition demonstrate_monster_group : io unit :=
  print "Monster Group Demonstration" ;;;
  print (repeat_str "=" 30) ;;;
  let monster := MonsterGroup.__init__ in
  print ("Group: " ++ MonsterGroup__str__ monster) ;;;
  print ("Order: " ++ format_comma (MonsterGroup.order monster)) ;;;
  print ("Is sporadic: " ++ str_bool (MonsterGroup.is_sporadic monster)) ;;;
  print ("Is simple: " ++ str_bool (MonsterGroup.is_simple monster)) ;;;
  print ("Conjugacy classes: "
         ++ str (MonsterGroup.get_conjugacy_classes_count monster)) ;;;
  print (nl ++ "Order verification: "
         ++ str_bool (MonsterGroup.verify_order monster)) ;;;
  print (nl ++ "Prime factorization:") ;;;
  for_each (MonsterGroup.get_factorization monster)
           (fun '(prime, power) => print ("  " ++ str prime ++ "^" ++ str power)) ;;;
  print (nl ++ "Some maximal subgroups:") ;;;
  for_each (firstn 5 (MonsterGroup.get_maximal_subgroups_info monster))
           (fun subgroup => print ("  " ++ subgroup)) ;;;
  print (nl ++ "Character table info:") ;;;
  let char_info := MonsterGroup.get_character_table_info monster in
  irr <-- lift (subscript char_info "irreducible_representations") ;;
  print ("  Irreducible representations: " ++ str_pyval irr) ;;;
  faithful <-- lift (subscript char_info "smallest_faithful_representation") ;;
  print ("  Smallest faithful representation: " ++ str_pyval faithful) ;;;
  moonshine <-- lift (subscript char_info "moonshine_connection") ;;
  print ("  Moonshine connection: " ++ str_pyval moonshine) ;;;
  print (nl ++ "Monster group elements:") ;;;
  let identity := MonsterElement.__init__ (Some "e") in
  print ("  Identity: " ++ MonsterElement__str__ identity) ;;;
  print ("  Identity order: "
         ++ str_optional_int (MonsterElement.order identity)) ;;;
  print ("  Identity conjugacy class: "
         ++ str_optional_str (MonsterElement.conjugacy_class identity)).

End Rendering.

(** ** More of [analyze_factorization] and [compare_group_orders] *)

Module Report.

Import MonsterUtils.

(** The two expressions of the ["Highest power"] line: the maximum
    exponent, then [[p for p, pow in items if pow == max(values)][0]]. *)
Definition highest_power (factorization : list (Z * Z)) : result (Z * Z) :=
  highest <- max (MonsterGroup.values factorization) ;;
  p <- first (map fst (filter (fun '(p, pow) => pow =? highest) factorization)) ;;
  Ok (highest, p).

(** The loop body of [compare_group_orders] for one reference group. *)
Definition compare_one_group (monster_order : Z) (name : string) (order : Z)
    : result triple :=
  ratio <- ratio_of monster_order order ;;
  desc <- describe ratio ;;
  Ok (name, order, desc).

End Report.

(** ** [example.py] and [demonstrate_utilities] *)

Module ExampleMain.

Import MonsterUtils Rendering.

(** [get_moonshine_info]. *)
Definition get_moonshine_info : list (string * string) :=
  [ ("description",
     "Monstrous moonshine is a connection between the Monster group and modular functions");
    ("j_invariant_expansion",
     "j(τ) = q^(-1) + 744 + 196884q + 21493760q^2 + ...");
    ("significance",
     "The coefficient 196884 = 196883 + 1, where 196883 is the dimension of the smallest faithful representation of M");
    ("generalized_moonshine", "Extends to other sporadic groups");
    ("fields_medalist",
     "Richard Borcherds proved the moonshine conjectures in 1992, winning the Fields Medal in 1998") ].

(** [needle in hay] for strings. *)
Fixpoint contains (needle hay : string) : bool :=
  String.prefix needle hay
  || match hay with
     | EmptyString => false
     | String _ hay' => contains needle hay'
     end.

(** [l[-k:]]. *)
Definition last_k {A : Type} (k : nat) (l : list A) : list A :=
  skipn (List.length l - k) l.

(** The body of the loop of [main] over [comparisons[-3:]]. *)
Definition print_comparison (t : triple) : io unit :=
  let '(name, order, desc) := t in
  if negb (contains "Monster" desc) || contains "Same" desc then io_ret tt
  else print ("   " ++ name ++ ": " ++ desc).

Section Libm.

Variable libm_log10 : Float.float -> Float.float.
Variable libm_pow : Float.float -> Float.float -> Float.float.

Definition main : io unit :=
  print "Monster Group Implementation Example" ;;;
  print (repeat_str "=" 40) ;;;
  print (nl ++ "1. Creating and exploring the Monster group:") ;;;
  let monster := MonsterGroup.__init__ in
  print ("   Name: " ++ MonsterGroup.name monster) ;;;
  print ("   Symbol: " ++ MonsterGroup.symbol monster) ;;;
  total <-- lift (format_large_number libm_log10 libm_pow
                    (MonsterGroup.order monster)) ;;
  print ("   Order: " ++ total) ;;;
  print ("   Is simple: " ++ str_bool (MonsterGroup.is_simple monster)) ;;;
  print ("   Is sporadic: " ++ str_bool (MonsterGroup.is_sporadic monster)) ;;;
  print (nl ++ "2. Working with Monster group elements:") ;;;
  let identity := MonsterElement.__init__ None in
  let element_g := MonsterElement.__init__ (Some "g") in
  print ("   Identity element: " ++ MonsterElement__str__ identity) ;;;
  print ("   Identity is identity: "
         ++ str_bool (MonsterElement.is_identity identity)) ;;;
  print ("   Identity order: "
         ++ str_optional_int (MonsterElement.order identity)) ;;;
  print ("   General element: " ++ MonsterElement__str__ element_g) ;;;
  print ("   General element is identity: "
         ++ str_bool (MonsterElement.is_identity element_g)) ;;;
  print (nl ++ "3. Prime factorization verification:") ;;;
  let factorization := MonsterGroup.get_factorization monster in
  print ("   Number of distinct primes: "
         ++ str (Z.of_nat (List.length factorization))) ;;;
  largest <-- lift (max (MonsterGroup.keys factorization)) ;;
  print ("   Largest prime: " ++ str largest) ;;;
  print ("   Order verification: "
         ++ str_bool (MonsterGroup.verify_order monster)) ;;;
  print (nl ++ "4. Mathematical properties:") ;;;
  print ("   Conjugacy classes: "
         ++ str (MonsterGroup.get_conjugacy_classes_count monster)) ;;;
  let char_info := MonsterGroup.get_character_table_info monster in
  irr <-- lift (subscript char_info "irreducible_representations") ;;
  print ("   Irreducible representations: " ++ str_pyval irr) ;;;
  faithful <-- lift (subscript char_info "smallest_faithful_representation") ;;
  print ("   Smallest faithful representation: " ++ str_pyval faithful) ;;;
  print (nl ++ "5. Monstrous Moonshine connection:") ;;;
  let moonshine := get_moonshine_info in
  description <-- lift (subscript moonshine "description") ;;
  print ("   " ++ description) ;;;
  significance <-- lift (subscript moonshine "significance") ;;
  print ("   Key insight: " ++ significance) ;;;
  print (nl ++ "6. Size comparison with other groups:") ;;;
  comparisons <-- lift compare_group_orders ;;
  for_each (last_k 3 comparisons) print_comparison ;;;
  print (nl ++ repeat_str "=" 40) ;;;
  print "Example completed successfully!".

Definition demonstrate_utilities : io unit :=
  print "Monster Group Utilities Demonstration" ;;;
  print (repeat_str "=" 40) ;;;
  let monster := MonsterGroup.__init__ in
  total <-- lift (format_large_number libm_log10 libm_pow
                    (MonsterGroup.order monster)) ;;
  print (nl ++ "Monster group order: " ++ total) ;;;
  print (nl ++ "Group Order Comparisons:") ;;;
  comparisons <-- lift compare_group_orders ;;
  for_each (firstn 8 comparisons)
           (fun '(name, order, desc) =>
              print ("  " ++ name ++ ": " ++ format_comma order) ;;;
              print ("    " ++ desc)) ;;;
  print (nl ++ "Monstrous Moonshine:") ;;;
  let moonshine := get_moonshine_info in
  description <-- lift (subscript moonshine "description") ;;
  print ("  " ++ description) ;;;
  expansion <-- lift (subscript moonshine "j_invariant_expansion") ;;
  print ("  J-invariant: " ++ expansion) ;;;
  significance <-- lift (subscript moonshine "significance") ;;
  print ("  Significance: " ++ significance) ;;;
  print nl ;;;
  analyze_factorization libm_log10 libm_pow.

End Libm.

End ExampleMain.

(** ** The digit limit of int-to-decimal conversion

    Since CPython 3.11 the conversion of an [int] to decimal text, by
    [str] or by a format specification, raises [ValueError] when the
    number has more digits than [sys.get_int_max_str_digits()], 4300
    unless it was changed; the sign is not counted. The functions below
    are the ones above with this case, in the order the source evaluates
    its f-strings. *)

Module Checked.

Import MonsterUtils.

Definition int_max_str_digits : Z := 4300.

(** The number has at most [int_max_str_digits] digits. *)
Definition fits (n : Z) : bool := Z.abs n <? 10 ^ int_max_str_digits.

(** [str(n)], as the [{n}] of an f-string. *)
Definition str_checked (n : Z) : result string :=
  if fits n then Ok (str n) else Raise ValueError.

(** [format(n, ",")], as the [{n:,}] of an f-string. *)
Definition format_comma_checked (n : Z) : result string :=
  if fits n then Ok (format_comma n) else Raise ValueError.

Section Libm.

Variable libm_log10 : Float.float -> Float.float.
Variable libm_pow : Float.float -> Float.float -> Float.float.

Definition scientific (n : Z) : result string :=
  if 0 <? n then
    exponent <- exponent_of libm_log10 n ;;
    p <- pow10 libm_pow exponent ;;
    mantissa <- truediv n p ;;
    exponent_text <- str_checked exponent ;;
    Ok (Float.format_f 2 mantissa ++ " × 10^" ++ exponent_text)
  else Ok "0".

(** [format_large_number]: the first statement formats [n] and is the
    first that can raise. *)
Definition format_large_number (n : Z) : result string :=
  formatted <- format_comma_checked n ;;
  sci <- scientific n ;;
  Ok (formatted ++ " (≈ " ++ sci ++ ")").

End Libm.

(** The body of the last loop of [analyze_factorization]: the lookup,
    the power and the division come before the f-string, whose fields
    are formatted from left to right. *)
Definition contribution_line (factorization : list (Z * Z)) (total_order : Z)
    (prime : Z) : io unit :=
  power <-- lift (getitem factorization prime) ;;
  let contribution := prime ^ power in
  q <-- lift (Float.int_true_divide contribution total_order) ;;
  let percentage := Float.mul q (literal 100) in
  prime_text <-- lift (str_checked prime) ;;
  power_text <-- lift (str_checked power) ;;
  contribution_text <-- lift (format_comma_checked contribution) ;;
  print ("  " ++ prime_text ++ "^" ++ power_text ++ " contributes "
         ++ contribution_text ++ " (" ++ Float.format_f 10 percentage ++ "%)").

End Checked.

(** ** The methods of [MonsterGroup] as programs with effects

    A method body is a tree of the operations it performs on the
    instance and on the store of dict objects: reading an attribute of
    [self], assigning to one, evaluating a dict display, reading a dict.
    Running a tree threads the instance and the store through it. *)

Module Methods.

Inductive event : Type -> Type :=
| Load_generators : event (option (list string))
| Load_name : event string
| Load_symbol : event string
| Store_generators (v : option (list string)) : event unit
| Store_name (v : string) : event unit
| Store_symbol (v : string) : event unit
| New_dict (items : Store.dict) : event Store.ref
| Dict_items (d : Store.ref) : event Store.dict.

Inductive prog (A : Type) : Type :=
| Ret (a : A)
| Vis {X : Type} (e : event X) (k : X -> prog A).

Arguments Ret {A} a.
Arguments Vis {A X} e k.

Fixpoint seq {A B : Type} (p : prog A) (k : A -> prog B) : prog B :=
  match p with
  | Ret a => k a
  | Vis e k' => Vis e (fun x => seq (k' x) k)
  end.

(** The instance and the store. *)
Definition world : Type := MonsterGroup.t * Store.heap.

(** One operation. Reading a dict through a reference that names no
    object has no outcome. *)
Definition handle {X : Type} (e : event X) (w : world) : option (X * world) :=
  let '(self, h) := w in
  match e in event X return option (X * world) with
  | Load_generators => Some (MonsterGroup._generators self, w)
  | Load_name => Some (MonsterGroup._name self, w)
  | Load_symbol => Some (MonsterGroup._symbol self, w)
  | Store_generators v =>
      Some (tt, (MonsterGroup.mk v (MonsterGroup._name self)
                   (MonsterGroup._symbol self), h))
  | Store_name v =>
      Some (tt, (MonsterGroup.mk (MonsterGroup._generators self) v
                   (MonsterGroup._symbol self), h))
  | Store_symbol v =>
      Some (tt, (MonsterGroup.mk (MonsterGroup._generators self)
                   (MonsterGroup._name self) v, h))
  | New_dict items => let '(r, h') := Store.alloc items h in Some (r, (self, h'))
  | Dict_items d =>
      match Store.deref h d with
      | Some items => Some (items, w)
      | None => None
      end
  end.

Fixpoint run {A : Type} (p : prog A) (w : world) : option (A * world) :=
  match p with
  | Ret a => Some (a, w)
  | Vis e k =>
      match handle e w with
      | Some (x, w') => run (k x) w'
      | None => None
      end
  end.

(** What a method returns; a dict is returned by reference. *)
Inductive answer : Type :=
| AInt (n : Z)
| AStr (s : string)
| ABool (b : bool)
| ALabels (l : list string)
| AInfo (d : list (string * MonsterGroup.pyval))
| ADict (r : Store.ref).

(** [__init__]: three assignments. *)
Definition __init__ : prog unit :=
  Vis (Store_generators None) (fun _ =>
  Vis (Store_name "Monster") (fun _ =>
  Vis (Store_symbol "M") (fun _ =>
  Ret tt))).

(** The properties and methods, body by body. [self.ORDER] is the class
    attribute. *)
Definition order : prog Z := Ret MonsterGroup.ORDER.

Definition name : prog string := Vis Load_name Ret.

Definition symbol : prog string := Vis Load_symbol Ret.

Definition is_sporadic : prog bool := Ret true.

Definition is_simple : prog bool := Ret true.

Definition get_factorization : prog Store.ref :=
  Vis (New_dict
         [ (2, 46); (3, 20); (5, 9); (7, 6); (11, 2); (13, 3); (17, 1);
           (19, 1); (23, 1); (29, 1); (31, 1); (41, 1); (47, 1); (59, 1);
           (71, 1) ])
      Ret.

Definition verify_order : prog bool :=
  seq get_factorization (fun factorization =>
  Vis (Dict_items factorization) (fun items =>
  let calculated_order := MonsterGroup.accumulate items 1 in
  Ret (calculated_order =? MonsterGroup.ORDER))).

Definition get_maximal_subgroups_info : prog (list string) :=
  Ret [ "2^1+24.Co1 (Baby Monster normalizer)";
        "2^2+11+22.(M24 × S3)";
        "3^1+12.2.Suz.2";
        "2^5+10+20.(S3 × L5(2))";
        "5^1+6.2.J2.4";
        "7^1+4.(3 × 2S7)";
        "11^1+2.(5 × 2S5)";
        "13^1+2.(3 × 4S4)";
        "(D10 × HN).2";
        "2^10+16.O10^+(2)" ].

Definition get_conjugacy_classes_count : prog Z := Ret 194.

Definition get_character_table_info
    : prog (list (string * MonsterGroup.pyval)) :=
  Ret [ ("irreducible_representations", MonsterGroup.PyInt 194);
        ("smallest_faithful_representation", MonsterGroup.PyInt 196883);
        ("moonshine_connection", MonsterGroup.PyBool true);
        ("j_invariant_coefficients",
         MonsterGroup.PyList
           [ MonsterGroup.PyInt 196884; MonsterGroup.PyInt 21493760;
             MonsterGroup.PyInt 864299970; MonsterGroup.PyEllipsis ]) ].

(** The body of each query method. *)
Definition method (q : MonsterGroup.query) : prog answer :=
  match q with
  | MonsterGroup.Qorder => seq order (fun v => Ret (AInt v))
  | MonsterGroup.Qname => seq name (fun v => Ret (AStr v))
  | MonsterGroup.Qsymbol => seq symbol (fun v => Ret (AStr v))
  | MonsterGroup.Qis_sporadic => seq is_sporadic (fun v => Ret (ABool v))
  | MonsterGroup.Qis_simple => seq is_simple (fun v => Ret (ABool v))
  | MonsterGroup.Qget_factorization =>
      seq get_factorization (fun v => Ret (ADict v))
  | MonsterGroup.Qverify_order => seq verify_order (fun v => Ret (ABool v))
  | MonsterGroup.Qget_maximal_subgroups_info =>
      seq get_maximal_subgroups_info (fun v => Ret (ALabels v))
  | MonsterGroup.Qget_conjugacy_classes_count =>
      seq get_conjugacy_classes_count (fun v => Ret (AInt v))
  | MonsterGroup.Qget_character_table_info =>
      seq get_character_table_info (fun v => Ret (AInfo v))
  end.

(** An operation that assigns to an attribute of [self]. *)
Definition assigns {X : Type} (e : event X) : bool :=
  match e with
  | Store_generators _ | Store_name _ | Store_symbol _ => true
  | _ => false
  end.

(** A program none of whose operations, on any path, assigns. *)
Inductive never_assigns {A : Type} : prog A -> Prop :=
| never_assigns_Ret (a : A) : never_assigns (Ret a)
| never_assigns_Vis {X : Type} (e : event X) (k : X -> prog A) :
    assigns e = false ->
    (forall x, never_assigns (k x)) ->
    never_assigns (Vis e k).

(** Python's [==] on two answers, each read in its own store: dicts are
    equal when their contents are. *)
Definition equal_answers (h1 : Store.heap) (a1 : answer)
    (h2 : Store.heap) (a2 : answer) : Prop :=
  match a1, a2 with
  | ADict r1, ADict r2 =>
      exists items, Store.deref h1 r1 = Some items /\
                    Store.deref h2 r2 = Some items
  | ADict _, _ | _, ADict _ => False
  | _, _ => a1 = a2
  end.

End Methods.

(** * Reference notions

    What the properties below compare the code with. *)

(** The product the loop of [verify_order] computes, as a right fold. *)
Definition product (items : list (Z * Z)) : Z :=
  fold_right (fun '(prime, power) acc => prime ^ power * acc) 1 items.

(** The summary record of three fields and no other. *)
Definition claimed_summary : list (string * MonsterGroup.pyval) :=
  [ ("irreducible_representations", MonsterGroup.PyInt 194);
    ("smallest_faithful_representation", MonsterGroup.PyInt 196883);
    ("moonshine_connection", MonsterGroup.PyBool true) ].

(** Two dicts are the same record when every key reads the same in both. *)
Definition same_record (d d' : list (string * MonsterGroup.pyval)) : Prop :=
  forall key : string, MonsterGroup.getitem d key = MonsterGroup.getitem d' key.

(** [e] is the floor of the base-10 logarithm of the integer [n]. *)
Definition is_floor_log10 (n e : Z) : Prop :=
  0 <= e /\ 10 ^ e <= n < 10 ^ (e + 1).


(** One C library to run the code with: [log10] rounded down to an
    integer, which is exact at the powers of ten, and [pow] on integral
    operands, correctly rounded. *)
Definition log10_floor (x : Float.float) : Float.float :=
  match x with
  | S754_finite false m e => MonsterUtils.literal (Float.floor_log10 m e)
  | S754_zero _ => S754_infinity true
  | S754_infinity false => S754_infinity false
  | _ => S754_nan
  end.

Definition pow_integral (x y : Float.float) : Float.float :=
  match Float.to_int x, Float.to_int y with
  | Ok b, Ok k =>
      if 0 <=? k then MonsterUtils.literal (b ^ k)
      else SFdiv Float.prec Float.emax (Float.exact 1) (Float.exact (b ^ (- k)))
  | _, _ => S754_nan
  end.

(** The three-way rule for a description: larger above 1, the same at 1,
    smaller below 1. *)
Definition three_way_rule (ratio : MonsterUtils.pynum) (desc : string) : Prop :=
  (MonsterUtils.gt_one ratio = true /\
   exists r, MonsterUtils.format_2e ratio = Ok r /\
             desc = "Monster is " ++ r ++ " times larger") \/
  (MonsterUtils.eq_one ratio = true /\ desc = "Same as Monster") \/
  (MonsterUtils.lt_one ratio = true /\
   exists inv, MonsterUtils.truediv 1 ratio = Ok inv /\
               desc = "Monster is " ++ Float.format_e 2 inv ++ " times smaller").

(** A triple is classified when its description follows the rule for
    the ratio of the Monster's order to its own. *)
Definition classified (monster_order : Z) (t : MonsterUtils.triple) : Prop :=
  let '(name, order, desc) := t in
  exists ratio, MonsterUtils.ratio_of monster_order order = Ok ratio /\
                MonsterUtils.describe ratio = Ok desc /\
                three_way_rule ratio desc.

Definition name_and_order (t : MonsterUtils.triple) : string * Z :=
  let '(name, order, desc) := t in (name, order).

(** * Properties *)

(** ** The factorization table and [verify_order] *)

Lemma accumulate_product (items : list (Z * Z)) (acc : Z) :
  MonsterGroup.accumulate items acc = acc * product items.
Proof.
  revert acc.
  induction items as [| [prime power] items IH]; intros acc; simpl.
  - lia.
  - unfold MonsterGroup.accumulate in *. simpl. rewrite IH. simpl. lia.
Qed.

Lemma product_Permutation (l l' : list (Z * Z)) :
  Permutation l l' -> product l = product l'.
Proof.
  induction 1 as [| [p e] l l' _ IH | [p e] [q f] l | l l' l'' _ IH1 _ IH2];
    simpl.
  - reflexivity.
  - now rewrite IH.
  - lia.
  - congruence.
Qed.

Lemma accumulate_Permutation (l l' : list (Z * Z)) (acc : Z) :
  Permutation l l' ->
  MonsterGroup.accumulate l acc = MonsterGroup.accumulate l' acc.
Proof.
  intros H. rewrite !accumulate_product.
  now rewrite (product_Permutation l l' H).
Qed.

(** C1. [verify_order] multiplies [prime ** power] over the 15 entries of
    the table in exact integer arithmetic and compares with [ORDER]; the
    product is the 54-digit order, so the method returns [True], and
    running the loop over the entries in any other order gives the same
    product and the same answer. *)
Theorem verify_order_any_iteration_order
    (self : MonsterGroup.t) (items : list (Z * Z))
    (Hperm : Permutation (MonsterGroup.get_factorization self) items) :
  List.length (MonsterGroup.get_factorization self) = 15%nat /\
  MonsterGroup.accumulate (MonsterGroup.get_factorization self) 1
    = 808017424794512875886459904961710757005754368000000000 /\
  MonsterGroup.verify_order self = true /\
  MonsterGroup.accumulate items 1
    = MonsterGroup.accumulate (MonsterGroup.get_factorization self) 1 /\
  (MonsterGroup.accumulate items 1 =? MonsterGroup.ORDER)
    = MonsterGroup.verify_order self.
Proof.
  assert (Hv : MonsterGroup.accumulate (MonsterGroup.get_factorization self) 1
               = 808017424794512875886459904961710757005754368000000000)
    by (vm_compute; reflexivity).
  assert (Hi : MonsterGroup.accumulate items 1
               = MonsterGroup.accumulate (MonsterGroup.get_factorization self) 1)
    by (symmetry; now apply accumulate_Permutation).
  split; [reflexivity |]. split; [exact Hv |].
  split; [unfold MonsterGroup.verify_order; rewrite Hv; reflexivity |].
  split; [exact Hi |].
  unfold MonsterGroup.verify_order. now rewrite Hi.
Qed.

Lemma verify_order_any_iteration_order_witness :
  Permutation (MonsterGroup.get_factorization MonsterGroup.__init__)
              (rev (MonsterGroup.get_factorization MonsterGroup.__init__)) /\
  (MonsterGroup.accumulate
     (rev (MonsterGroup.get_factorization MonsterGroup.__init__)) 1
   =? MonsterGroup.ORDER) = true.
Proof.
  split.
  - apply Permutation_rev.
  - pose proof (verify_order_any_iteration_order MonsterGroup.__init__
                  (rev (MonsterGroup.get_factorization MonsterGroup.__init__))
                  (Permutation_rev _)) as H.
    destruct H as (_ & _ & Ht & _ & He). rewrite He. exact Ht.
Defined.

(** C2. The mapping [get_factorization] returns has exactly the 15 primes
    2, 3, ..., 71 as keys, each once; every exponent is positive; and the
    exponents of 2, 3, 5 and 7 are 46, 20, 9 and 6. *)
Theorem get_factorization_table (self : MonsterGroup.t) :
  let factorization := MonsterGroup.get_factorization self in
  (forall p : Z,
     In p (MonsterGroup.keys factorization) <->
     In p [2; 3; 5; 7; 11; 13; 17; 19; 23; 29; 31; 41; 47; 59; 71]) /\
  NoDup (MonsterGroup.keys factorization) /\
  List.length (MonsterGroup.keys factorization) = 15%nat /\
  Forall (fun power => 0 < power) (MonsterGroup.values factorization) /\
  MonsterUtils.getitem factorization 2 = Ok 46 /\
  MonsterUtils.getitem factorization 3 = Ok 20 /\
  MonsterUtils.getitem factorization 5 = Ok 9 /\
  MonsterUtils.getitem factorization 7 = Ok 6.
Proof.
  cbv zeta.
  split; [intros p; simpl; tauto |].
  split.
  { simpl. repeat (constructor; [simpl; intuition discriminate |]).
    constructor. }
  split; [reflexivity |].
  split; [simpl; repeat constructor |].
  repeat (split; [reflexivity |]). reflexivity.
Qed.

(** ** The character table summary *)

Lemma getitem_app {V : Type} (d d' : list (string * V)) (key : string) :
  MonsterGroup.getitem (d ++ d')%list key
  = match MonsterGroup.getitem d key with
    | Some v => Some v
    | None => MonsterGroup.getitem d' key
    end.
Proof.
  induction d as [| [k v] d IH]; [reflexivity |].
  cbn [MonsterGroup.getitem app]. destruct (String.eqb k key); auto.
Qed.

(** The dict of [get_character_table_info] is not the three-field record:
    it has a fourth key. *)
Lemma character_table_info_has_fourth_field :
  ~ same_record (MonsterGroup.get_character_table_info MonsterGroup.__init__)
                claimed_summary.
Proof.
  intros H. specialize (H "j_invariant_coefficients").
  vm_compute in H. discriminate H.
Qed.

(** C5, amended. [get_character_table_info] returns a dict of four
    keys: the three of the summary record with the values 194, 196883 and
    [True], and ["j_invariant_coefficients"] with the list
    [[196884, 21493760, 864299970, ...]]; [get_conjugacy_classes_count]
    returns 194. *)
Theorem character_table_info_fields (self : MonsterGroup.t) :
  let info := MonsterGroup.get_character_table_info self in
  MonsterGroup.keys info
    = [ "irreducible_representations"; "smallest_faithful_representation";
        "moonshine_connection"; "j_invariant_coefficients" ] /\
  (forall key v, MonsterGroup.getitem claimed_summary key = Some v ->
                 MonsterGroup.getitem info key = Some v) /\
  MonsterGroup.getitem info "irreducible_representations"
    = Some (MonsterGroup.PyInt 194) /\
  MonsterGroup.getitem info "smallest_faithful_representation"
    = Some (MonsterGroup.PyInt 196883) /\
  MonsterGroup.getitem info "moonshine_connection"
    = Some (MonsterGroup.PyBool true) /\
  MonsterGroup.getitem info "j_invariant_coefficients"
    = Some (MonsterGroup.PyList
              [ MonsterGroup.PyInt 196884; MonsterGroup.PyInt 21493760;
                MonsterGroup.PyInt 864299970; MonsterGroup.PyEllipsis ]) /\
  MonsterGroup.get_conjugacy_classes_count self = 194.
Proof.
  cbv zeta.
  split; [reflexivity |].
  split.
  { intros key v H.
    change (MonsterGroup.get_character_table_info self)
      with (claimed_summary
              ++ [("j_invariant_coefficients",
                   MonsterGroup.PyList
                     [ MonsterGroup.PyInt 196884; MonsterGroup.PyInt 21493760;
                       MonsterGroup.PyInt 864299970;
                       MonsterGroup.PyEllipsis ])])%list.
    rewrite getitem_app, H. reflexivity. }
  repeat (split; [reflexivity |]). reflexivity.
Qed.

(** ** Elements *)

(** C6. An element built from any identifier, where no identifier or the
    empty one becomes ["e"], is the identity exactly when its stored
    identifier is ["e"]; the identity has order 1 and class ["1A"]; any
    other element, ["g1"] for one, has [None] for both, which is a value
    and not [0]. *)
Theorem element_identity_or_not_computed (arg : option string) :
  let el := MonsterElement.__init__ arg in
  (arg = None \/ arg = Some "" -> MonsterElement.element_id el = "e") /\
  (forall s, arg = Some s -> s <> "" -> MonsterElement.element_id el = s) /\
  (MonsterElement.is_identity el = true <-> MonsterElement.element_id el = "e") /\
  (MonsterElement.is_identity el = true ->
     MonsterElement.order el = Some 1 /\
     MonsterElement.conjugacy_class el = Some "1A") /\
  (MonsterElement.is_identity el = false ->
     MonsterElement.order el = None /\
     MonsterElement.conjugacy_class el = None /\
     MonsterElement.order el <> Some 0) /\
  (let g1 := MonsterElement.__init__ (Some "g1") in
   MonsterElement.is_identity g1 = false /\
   MonsterElement.order g1 = None /\
   MonsterElement.conjugacy_class g1 = None).
Proof.
  cbv zeta.
  split.
  { intros [-> | ->]; reflexivity. }
  split.
  { intros s -> Hs. destruct s; [contradiction | reflexivity]. }
  split.
  { unfold MonsterElement.is_identity. apply String.eqb_eq. }
  split.
  { intros H. unfold MonsterElement.order, MonsterElement.conjugacy_class.
    rewrite H. split; reflexivity. }
  split.
  { intros H. unfold MonsterElement.order, MonsterElement.conjugacy_class.
    rewrite H. repeat split; discriminate. }
  repeat split.
Qed.

(** ** Queries leave the instance alone *)

(** Running a program that never assigns leaves the instance as it was
    and only adds objects to the store. *)
Lemma run_never_assigns {A : Type} (p : Methods.prog A) :
  Methods.never_assigns p ->
  forall (w w' : Methods.world) (a : A),
    Methods.run p w = Some (a, w') ->
    fst w' = fst w /\ exists added, snd w' = (snd w ++ added)%list.
Proof.
  induction 1 as [a0 | X e k He Hk IH]; intros [self h] w' a Hrun.
  - injection Hrun as <- <-. split; [reflexivity |].
    exists []. now rewrite app_nil_r.
  - cbn [Methods.run] in Hrun.
    destruct e; try discriminate He; cbn [Methods.handle] in Hrun.
    + exact (IH _ _ _ _ Hrun).
    + exact (IH _ _ _ _ Hrun).
    + exact (IH _ _ _ _ Hrun).
    + unfold Store.alloc in Hrun.
      destruct (IH _ _ _ _ Hrun) as (Hself & added & Hheap).
      split; [exact Hself |]. cbn [fst snd] in *.
      exists (items :: added). rewrite Hheap, <- app_assoc. reflexivity.
    + destruct (Store.deref h d); [| discriminate Hrun].
      exact (IH _ _ _ _ Hrun).
Qed.

Lemma never_assigns_seq {A B : Type} (p : Methods.prog A)
    (k : A -> Methods.prog B) :
  Methods.never_assigns p ->
  (forall a, Methods.never_assigns (k a)) ->
  Methods.never_assigns (Methods.seq p k).
Proof.
  induction 1 as [a | X e k' He Hk IH]; intros Hcont; cbn [Methods.seq].
  - apply Hcont.
  - constructor; [exact He |]. intros x. now apply IH.
Qed.

(** None of the ten query methods assigns to an attribute of [self]. *)
Lemma method_never_assigns (q : MonsterGroup.query) :
  Methods.never_assigns (Methods.method q).
Proof.
  destruct q; cbn;
    repeat (constructor; try reflexivity; intros).
Qed.

(** [__init__] does assign: run on any instance it leaves the instance
    that [MonsterGroup()] builds. *)
Lemma run_init (self : MonsterGroup.t) (h : Store.heap) :
  Methods.run Methods.__init__ (self, h) = Some (tt, (MonsterGroup.__init__, h)) /\
  ~ Methods.never_assigns Methods.__init__.
Proof.
  split; [reflexivity |].
  intros H.
  assert (Hhead : forall p : Methods.prog unit,
            Methods.never_assigns p ->
            match p with
            | Methods.Ret _ => True
            | Methods.Vis e _ => Methods.assigns e = false
            end)
    by (intros p [a | X e k He Hk]; [exact I | exact He]).
  specialize (Hhead _ H). discriminate Hhead.
Qed.

(** What each query method returns, and the store it leaves. *)
Lemma run_method (q : MonsterGroup.query) (self : MonsterGroup.t)
    (h : Store.heap) :
  Methods.run (Methods.method q) (self, h)
  = Some
      match q with
      | MonsterGroup.Qorder => (Methods.AInt MonsterGroup.ORDER, (self, h))
      | MonsterGroup.Qname => (Methods.AStr (MonsterGroup._name self), (self, h))
      | MonsterGroup.Qsymbol =>
          (Methods.AStr (MonsterGroup._symbol self), (self, h))
      | MonsterGroup.Qis_sporadic => (Methods.ABool true, (self, h))
      | MonsterGroup.Qis_simple => (Methods.ABool true, (self, h))
      | MonsterGroup.Qget_factorization =>
          (Methods.ADict (List.length h),
           (self, (h ++ [MonsterGroup.get_factorization self])%list))
      | MonsterGroup.Qverify_order =>
          (Methods.ABool (MonsterGroup.verify_order self),
           (self, (h ++ [MonsterGroup.get_factorization self])%list))
      | MonsterGroup.Qget_maximal_subgroups_info =>
          (Methods.ALabels (MonsterGroup.get_maximal_subgroups_info self),
           (self, h))
      | MonsterGroup.Qget_conjugacy_classes_count =>
          (Methods.AInt (MonsterGroup.get_conjugacy_classes_count self),
           (self, h))
      | MonsterGroup.Qget_character_table_info =>
          (Methods.AInfo (MonsterGroup.get_character_table_info self),
           (self, h))
      end.
Proof.
  destruct q; try reflexivity.
  cbn [Methods.method Methods.verify_order Methods.get_factorization
       Methods.seq Methods.run Methods.handle].
  unfold Store.alloc. cbn [Methods.handle]. unfold Store.deref.
  rewrite nth_error_app2, Nat.sub_diag by lia. reflexivity.
Qed.

(** C9. Each of the ten query methods, run on any instance in any
    store, returns; it leaves the instance as it was, and so does a
    second call; the two results are equal, two dicts being equal by
    their contents; and every dict that existed before the calls is
    unchanged. *)
Theorem query_twice_same_result
    (q : MonsterGroup.query) (self : MonsterGroup.t) (h : Store.heap) :
  exists a1 w1 a2 w2,
    Methods.run (Methods.method q) (self, h) = Some (a1, w1) /\
    Methods.run (Methods.method q) w1 = Some (a2, w2) /\
    fst w1 = self /\ fst w2 = self /\
    Methods.equal_answers (snd w1) a1 (snd w2) a2 /\
    Methods.equal_answers (snd w2) a1 (snd w2) a2 /\
    (forall r, (r < List.length h)%nat ->
               Store.deref (snd w2) r = Store.deref h r).
Proof.
  destruct (Methods.run (Methods.method q) (self, h)) as [[a1 w1] |] eqn:E1;
    [| rewrite run_method in E1; discriminate E1].
  destruct (run_never_assigns _ (method_never_assigns q) _ _ _ E1)
    as (Hs1 & added1 & Hh1).
  destruct w1 as [self1 h1]. cbn [fst snd] in Hs1, Hh1. subst self1.
  destruct (Methods.run (Methods.method q) (self, h1)) as [[a2 w2] |] eqn:E2;
    [| rewrite run_method in E2; discriminate E2].
  destruct (run_never_assigns _ (method_never_assigns q) _ _ _ E2)
    as (Hs2 & added2 & Hh2).
  destruct w2 as [self2 h2]. cbn [fst snd] in Hs2, Hh2. subst self2.
  exists a1, (self, h1), a2, (self, h2). cbn [fst snd].
  split; [reflexivity |]. split; [exact E2 |].
  split; [reflexivity |]. split; [reflexivity |].
  rewrite run_method in E1, E2.
  assert (Hold : forall r, (r < List.length h)%nat ->
                   Store.deref h2 r = Store.deref h r).
  { intros r Hr. unfold Store.deref. subst h2 h1.
    rewrite <- app_assoc. now apply nth_error_app1. }
  destruct q; injection E1 as <- <-; injection E2 as <- <-;
    cbn [Methods.equal_answers];
    try (split; [reflexivity | split; [reflexivity | exact Hold]]).
  split; [| split; [| exact Hold]];
    exists (MonsterGroup.get_factorization self); unfold Store.deref;
    rewrite ?length_app; cbn [List.length];
    split;
    repeat first
      [ rewrite nth_error_app2 by (rewrite ?length_app; cbn [List.length]; lia)
      | rewrite nth_error_app1 by (rewrite ?length_app; cbn [List.length]; lia) ];
    rewrite ?length_app; cbn [List.length];
    match goal with
    | |- nth_error _ ?n = _ => replace n with 0%nat by lia
    end; reflexivity.
Qed.

(** ** Fresh dicts *)

Lemma length_update_at (h : Store.heap) (r : Store.ref)
    (f : Store.dict -> Store.dict) :
  List.length (Store.update_at h r f) = List.length h.
Proof.
  revert r. induction h as [| d h IH]; intros [| r]; simpl; auto.
Qed.

Lemma length_mutate (h : Store.heap) (m : Store.mutation) :
  List.length (Store.mutate h m) = List.length h.
Proof.
  destruct m; apply length_update_at.
Qed.

Lemma length_mutate_all (ms : list Store.mutation) (h : Store.heap) :
  List.length (Store.mutate_all h ms) = List.length h.
Proof.
  revert h. induction ms as [| m ms IH]; intros h; simpl; [reflexivity |].
  unfold Store.mutate_all in *. simpl. rewrite IH. apply length_mutate.
Qed.

Lemma deref_alloc (d : Store.dict) (h : Store.heap) :
  Store.deref (snd (Store.alloc d h)) (fst (Store.alloc d h)) = Some d.
Proof.
  unfold Store.alloc, Store.deref. simpl.
  rewrite nth_error_app2 by lia. now rewrite Nat.sub_diag.
Qed.


(** A call of [verify_order] answers [True] in every store. *)
Lemma verify_order_in_any_store (self : MonsterGroup.t) (h : Store.heap) :
  fst (Store.verify_order self h) = Some true.
Proof.
  unfold Store.verify_order, Store.get_factorization.
  pose proof (deref_alloc (MonsterGroup.get_factorization self) h) as H.
  destruct (Store.alloc (MonsterGroup.get_factorization self) h) as [r h'].
  simpl in H. rewrite H. reflexivity.
Qed.

(** C10. Every call of [get_factorization] returns a dict object that did
    not exist before the call and holds the table. So whatever a caller
    does to a dict an earlier call returned (set, delete, clear, on any
    object of the store), a later call on any instance returns a different
    object with the same table as if nothing had been done, and
    [verify_order] still returns [True]. *)
Theorem get_factorization_returns_fresh_dict
    (self self' : MonsterGroup.t) (h : Store.heap) (ms : list Store.mutation) :
  let '(r, h1) := Store.get_factorization self h in
  let h2 := Store.mutate_all h1 ms in
  let '(r', h3) := Store.get_factorization self' h2 in
  Store.deref h r' = None /\ Store.deref h2 r' = None /\
  r' <> r /\
  Store.deref h3 r' = Some (MonsterGroup.get_factorization self') /\
  Store.deref h3 r'
    = Store.deref (snd (Store.get_factorization self' h1))
                  (fst (Store.get_factorization self' h1)) /\
  Store.deref h3 r = Store.deref h2 r /\
  fst (Store.verify_order self' h2) = Some true /\
  fst (Store.verify_order self' h2) = fst (Store.verify_order self' h1).
Proof.
  cbv beta iota zeta delta [Store.get_factorization Store.alloc].
  cbn [fst snd].
  rewrite !verify_order_in_any_store.
  match goal with
  | |- context [Store.mutate_all ?x ms] =>
      assert (Hlen1 : List.length x = S (List.length h))
        by (rewrite length_app; simpl; lia);
      remember x as h1 eqn:Eh1 in *
  end.
  pose proof (length_mutate_all ms h1) as Hlen.
  remember (Store.mutate_all h1 ms) as h2 eqn:Eh2 in *.
  unfold Store.deref.
  split; [apply nth_error_None; lia |].
  split; [apply nth_error_None; lia |].
  split; [lia |].
  split; [rewrite nth_error_app2, Nat.sub_diag by lia; reflexivity |].
  split; [now rewrite !nth_error_app2, !Nat.sub_diag by lia |].
  split; [apply nth_error_app1; lia |].
  split; reflexivity.
Qed.

(** ** [format_large_number] *)


Section FormatLargeNumber.

Variable libm_log10 : Float.float -> Float.float.
Variable libm_pow : Float.float -> Float.float -> Float.float.

Lemma scientific_nonpositive (n : Z) :
  n <= 0 -> MonsterUtils.scientific libm_log10 libm_pow n = Ok "0".
Proof.
  intros H. unfold MonsterUtils.scientific.
  destruct (0 <? n) eqn:E; [apply Z.ltb_lt in E; lia | reflexivity].
Qed.

(** The exponent is computed from [float(n)] alone. *)
Lemma exponent_of_float (n : Z) (x : Float.float) :
  0 < n -> Float.of_int n = Ok x ->
  MonsterUtils.exponent_of libm_log10 n = Float.to_int (libm_log10 x).
Proof.
  intros Hn Hx. unfold MonsterUtils.exponent_of, MonsterUtils.math_log10.
  destruct (n <=? 0) eqn:E; [apply Z.leb_le in E; lia |].
  rewrite Hx. reflexivity.
Qed.


End FormatLargeNumber.

Lemma checked_scientific_nonpositive
    (libm_log10 : Float.float -> Float.float)
    (libm_pow : Float.float -> Float.float -> Float.float) (n : Z) :
  n <= 0 -> Checked.scientific libm_log10 libm_pow n = Ok "0".
Proof.
  intros H. unfold Checked.scientific.
  destruct (0 <? n) eqn:E; [apply Z.ltb_lt in E; lia | reflexivity].
Qed.

(** Within the digit limit, and for [n <= 0], the function with the
    limit and the one without it return the same. *)
Lemma checked_format_large_number_agrees
    (libm_log10 : Float.float -> Float.float)
    (libm_pow : Float.float -> Float.float -> Float.float) (n : Z) :
  n <= 0 -> Checked.fits n = true ->
  Checked.format_large_number libm_log10 libm_pow n
  = MonsterUtils.format_large_number libm_log10 libm_pow n.
Proof.
  intros Hn Hfits.
  unfold Checked.format_large_number, Checked.format_comma_checked,
    MonsterUtils.format_large_number.
  rewrite Hfits, checked_scientific_nonpositive, scientific_nonpositive
    by assumption.
  reflexivity.
Qed.

(** A number below [10**18] is within the digit limit. *)
Lemma fits_small (n : Z) : Z.abs n < 10 ^ 18 -> Checked.fits n = true.
Proof.
  intros H. unfold Checked.fits. apply Z.ltb_lt.
  apply (Z.lt_le_trans _ _ _ H). apply Z.pow_le_mono_r; [lia |].
  unfold Checked.int_max_str_digits. lia.
Qed.

(** At [-(10**4300)], which has 4301 digits, the first statement of
    [format_large_number] raises [ValueError]. *)
Lemma format_large_number_at_digit_limit
    (libm_log10 : Float.float -> Float.float)
    (libm_pow : Float.float -> Float.float -> Float.float) :
  Checked.format_large_number libm_log10 libm_pow
    (- 10 ^ Checked.int_max_str_digits)
  = Raise ValueError.
Proof.
  unfold Checked.format_large_number, Checked.format_comma_checked,
    Checked.fits.
  rewrite Z.abs_opp, Z.abs_eq by (apply Z.pow_nonneg; lia).
  rewrite Z.ltb_irrefl. reflexivity.
Qed.

(** C7 as stated fails: it is not so that [format_large_number] returns
    for every [n <= 0]. *)
Lemma format_large_number_fails_above_digit_limit :
  ~ (forall (libm_log10 : Float.float -> Float.float)
            (libm_pow : Float.float -> Float.float -> Float.float) (n : Z),
       n <= 0 ->
       exists s, Checked.format_large_number libm_log10 libm_pow n = Ok s).
Proof.
  intros H.
  destruct (H log10_floor pow_integral (- 10 ^ Checked.int_max_str_digits))
    as [s Hs].
  - apply Z.opp_nonpos_nonneg, Z.pow_nonneg. lia.
  - rewrite format_large_number_at_digit_limit in Hs. discriminate Hs.
Qed.

(** C7, amended. For [n <= 0] of at most 4300 digits the call raises
    nothing, whatever the C library does: it returns the comma-grouped
    digits of [n] followed by [" (≈ 0)"], the scientific part being the
    string ["0"]. With more digits it raises [ValueError]. *)
Theorem format_large_number_nonpositive
    (libm_log10 : Float.float -> Float.float)
    (libm_pow : Float.float -> Float.float -> Float.float)
    (n : Z) (Hn : n <= 0) :
  Checked.scientific libm_log10 libm_pow n = Ok "0" /\
  (Z.abs n < 10 ^ Checked.int_max_str_digits ->
   Checked.format_large_number libm_log10 libm_pow n
   = Ok (format_comma n ++ " (≈ 0)")) /\
  (10 ^ Checked.int_max_str_digits <= Z.abs n ->
   Checked.format_large_number libm_log10 libm_pow n = Raise ValueError).
Proof.
  split; [now apply checked_scientific_nonpositive |].
  unfold Checked.format_large_number, Checked.format_comma_checked,
    Checked.fits.
  rewrite checked_scientific_nonpositive by assumption.
  split; intros Hdigits.
  - apply Z.ltb_lt in Hdigits. rewrite Hdigits. reflexivity.
  - apply Z.ltb_ge in Hdigits. rewrite Hdigits. reflexivity.
Qed.

Lemma format_large_number_nonpositive_witness :
  -12345 <= 0 /\
  Checked.format_large_number log10_floor pow_integral (-12345)
    = Ok "-12,345 (≈ 0)".
Proof.
  split; [lia |].
  apply (proj1 (proj2 (format_large_number_nonpositive log10_floor
                          pow_integral (-12345) ltac:(lia)))).
  apply Z.ltb_lt. apply (fits_small (-12345)). reflexivity.
Defined.



Example floor_log10_near_ten_to_17 :
  is_floor_log10 (10 ^ 17 - 1) 16 /\ is_floor_log10 (10 ^ 17) 17.
Proof.
  unfold is_floor_log10. repeat split; vm_compute; congruence.
Qed.


(** With the library of this file the larger exponent is the one taken,
    and the mantissa of 1015 shows the rounding of the division before
    the rounding to two decimals. *)
Example format_large_number_examples :
  MonsterUtils.format_large_number log10_floor pow_integral (10 ^ 17 - 1)
    = Ok "99,999,999,999,999,999 (≈ 1.00 × 10^17)" /\
  MonsterUtils.format_large_number log10_floor pow_integral 1015
    = Ok "1,015 (≈ 1.01 × 10^3)" /\
  MonsterUtils.format_large_number log10_floor pow_integral MonsterGroup.ORDER
    = Ok "808,017,424,794,512,875,886,459,904,961,710,757,005,754,368,000,000,000 (≈ 8.08 × 10^53)".
Proof.
  repeat split; vm_compute; reflexivity.
Qed.

(** ** [compare_group_orders] *)

(** The rule, read off the code: a ratio that compares with 1 gets the
    description of its case. *)
Lemma describe_three_way (ratio : MonsterUtils.pynum) (desc : string) :
  MonsterUtils.compare_one ratio <> None ->
  MonsterUtils.describe ratio = Ok desc ->
  three_way_rule ratio desc.
Proof.
  unfold three_way_rule, MonsterUtils.describe, MonsterUtils.gt_one,
    MonsterUtils.eq_one, MonsterUtils.lt_one.
  intros Hc Hd.
  destruct (MonsterUtils.compare_one ratio) as [[ | | ] |]; [| | | congruence].
  - right; left. split; [reflexivity | congruence].
  - right; right. split; [reflexivity |].
    destruct (MonsterUtils.truediv 1 ratio) as [inv | e]; [| discriminate Hd].
    exists inv. split; [reflexivity | cbn [bind] in Hd; congruence].
  - left. split; [reflexivity |].
    destruct (MonsterUtils.format_2e ratio) as [r | e]; [| discriminate Hd].
    exists r. split; [reflexivity | cbn [bind] in Hd; congruence].
Qed.

(** Each loop appends one triple per entry, in the order of the entries. *)
Lemma compare_dict_in_order (monster_order : Z) (items : list (string * Z)) :
  forall comparisons result,
    MonsterUtils.compare_dict monster_order items comparisons = Ok result ->
    exists added,
      result = (comparisons ++ added)%list /\
      map name_and_order added = items /\
      Forall (fun t => exists ratio,
                MonsterUtils.ratio_of monster_order (snd (name_and_order t))
                  = Ok ratio /\
                MonsterUtils.describe ratio = Ok (snd t)) added.
Proof.
  induction items as [| [name order] items IH]; intros comparisons result H.
  - exists []. injection H as <-. rewrite app_nil_r. repeat constructor.
  - cbn [MonsterUtils.compare_dict] in H.
    destruct (MonsterUtils.ratio_of monster_order order) as [ratio | e] eqn:Er;
      [| discriminate H].
    cbn [bind] in H.
    destruct (MonsterUtils.describe ratio) as [desc | e] eqn:Ed;
      [| discriminate H].
    cbn [bind] in H.
    destruct (IH _ _ H) as (added & -> & Hmap & Hall).
    exists ((name, order, desc) :: added). split; [| split].
    + now rewrite <- app_assoc.
    + simpl. now rewrite Hmap.
    + constructor; [| exact Hall]. exists ratio. simpl. now split.
Qed.

Lemma compare_groups_in_order (monster_order : Z)
    (gs : list (string * list (string * Z))) :
  forall comparisons result,
    MonsterUtils.compare_groups monster_order gs comparisons = Ok result ->
    exists added,
      result = (comparisons ++ added)%list /\
      map name_and_order added = flat_map snd gs.
Proof.
  induction gs as [| [category group_dict] gs IH]; intros comparisons result H.
  - exists []. injection H as <-. now rewrite app_nil_r.
  - cbn [MonsterUtils.compare_groups] in H.
    destruct (MonsterUtils.compare_dict monster_order group_dict comparisons)
      as [comparisons' | e] eqn:Ec; [| discriminate H].
    cbn [bind] in H.
    destruct (compare_dict_in_order _ _ _ _ Ec) as (added1 & -> & Hmap1 & _).
    destruct (IH _ _ H) as (added2 & -> & Hmap2).
    exists (added1 ++ added2)%list. split.
    + now rewrite app_assoc.
    + cbn [flat_map snd]. now rewrite map_app, Hmap1, Hmap2.
Qed.

(** C4. [compare_group_orders] returns one triple per reference group,
    in the order the groups are written in; each description follows the
    three-way rule for the ratio of the Monster's order to the group's;
    and the entry ["Monster M"] has the order [MonsterGroup.ORDER], the
    ratio [1] and the description ["Same as Monster"]. *)
Theorem compare_group_orders_classifies :
  exists comparisons,
    MonsterUtils.compare_group_orders = Ok comparisons /\
    map name_and_order comparisons
      = flat_map snd (MonsterUtils.groups MonsterGroup.ORDER) /\
    map name_and_order comparisons
      = [ ("S_5", 120); ("S_10", 3628800); ("S_20", 2432902008176640000);
          ("Mathieu M_24", 244823040); ("Conway Co_1", 4157776806543360000);
          ("Baby Monster B", 4154781481226426191177580544000000);
          ("Monster M", MonsterGroup.ORDER) ] /\
    Forall (classified MonsterGroup.ORDER) comparisons /\
    MonsterUtils.ratio_of MonsterGroup.ORDER MonsterGroup.ORDER
      = Ok (MonsterUtils.PInt 1) /\
    In ("Monster M", MonsterGroup.ORDER, "Same as Monster") comparisons /\
    comparisons
      = [ ("S_5", 120, "Monster is 6.73e+51 times larger");
          ("S_10", 3628800, "Monster is 2.23e+47 times larger");
          ("S_20", 2432902008176640000, "Monster is 3.32e+35 times larger");
          ("Mathieu M_24", 244823040, "Monster is 3.30e+45 times larger");
          ("Conway Co_1", 4157776806543360000,
           "Monster is 1.94e+35 times larger");
          ("Baby Monster B", 4154781481226426191177580544000000,
           "Monster is 1.94e+20 times larger");
          ("Monster M", MonsterGroup.ORDER, "Same as Monster") ].
Proof.
  eexists. split; [vm_compute; reflexivity |].
  split; [vm_compute; reflexivity |].
  split; [vm_compute; reflexivity |].
  split.
  { repeat (apply Forall_cons || apply Forall_nil);
      (eexists; split; [vm_compute; reflexivity |];
       split; [vm_compute; reflexivity |];
       apply describe_three_way; vm_compute; [discriminate | reflexivity]). }
  split; [vm_compute; reflexivity |].
  split; [| vm_compute; reflexivity].
  do 6 right. left. vm_compute. reflexivity.
Qed.

(** ** [analyze_factorization] *)

(** An entry is rendered [p] when its exponent is 1 and [p^e] otherwise. *)
Lemma factor_str_rule (prime power : Z) :
  MonsterUtils.factor_str (prime, power)
  = if power =? 1 then str prime else str prime ++ "^" ++ str power.
Proof. reflexivity. Qed.

(** C8. Once the total order is formatted, [analyze_factorization]
    writes: the title and its rule; the total order; the factorization,
    each prime as [p] for the exponent 1 and [p^e] otherwise, ascending,
    joined by [" × "]; 15 distinct primes; the largest prime 71; the
    highest power 46 with its prime 2; and for each prime, ascending, the
    contribution [p**e] and its percentage of the order with ten
    fractional digits. It raises nothing. *)
Theorem analyze_factorization_report
    (libm_log10 : Float.float -> Float.float)
    (libm_pow : Float.float -> Float.float -> Float.float)
    (total : string)
    (Htotal : MonsterUtils.format_large_number libm_log10 libm_pow
                MonsterGroup.ORDER = Ok total) :
  let nl := MonsterUtils.nl in
  map MonsterUtils.factor_str
      (MonsterUtils.sorted MonsterUtils.pair_leb
         (MonsterGroup.get_factorization MonsterGroup.__init__))
    = [ "2^46"; "3^20"; "5^9"; "7^6"; "11^2"; "13^3"; "17"; "19"; "23"; "29";
        "31"; "41"; "47"; "59"; "71" ] /\
  MonsterUtils.sorted Z.leb
      (MonsterGroup.keys (MonsterGroup.get_factorization MonsterGroup.__init__))
    = [2; 3; 5; 7; 11; 13; 17; 19; 23; 29; 31; 41; 47; 59; 71] /\
  MonsterUtils.analyze_factorization libm_log10 libm_pow
    = ([ "Monster Group Prime Factorization Analysis" ++ nl;
         "=============================================" ++ nl;
         nl ++ "Total order: " ++ total ++ nl;
         nl ++ "Prime factorization: M = ";
         "2^46 × 3^20 × 5^9 × 7^6 × 11^2 × 13^3 × 17 × 19 × 23 × 29 × 31 × 41 × 47 × 59 × 71" ++ nl;
         nl ++ "Number of distinct prime factors: 15" ++ nl;
         "Largest prime factor: 71" ++ nl;
         "Highest power: 46 (for prime 2)" ++ nl;
         nl ++ "Contribution of each prime to the total order:" ++ nl;
         "  2^46 contributes 70,368,744,177,664 (0.0000000000%)" ++ nl;
         "  3^20 contributes 3,486,784,401 (0.0000000000%)" ++ nl;
         "  5^9 contributes 1,953,125 (0.0000000000%)" ++ nl;
         "  7^6 contributes 117,649 (0.0000000000%)" ++ nl;
         "  11^2 contributes 121 (0.0000000000%)" ++ nl;
         "  13^3 contributes 2,197 (0.0000000000%)" ++ nl;
         "  17^1 contributes 17 (0.0000000000%)" ++ nl;
         "  19^1 contributes 19 (0.0000000000%)" ++ nl;
         "  23^1 contributes 23 (0.0000000000%)" ++ nl;
         "  29^1 contributes 29 (0.0000000000%)" ++ nl;
         "  31^1 contributes 31 (0.0000000000%)" ++ nl;
         "  41^1 contributes 41 (0.0000000000%)" ++ nl;
         "  47^1 contributes 47 (0.0000000000%)" ++ nl;
         "  59^1 contributes 59 (0.0000000000%)" ++ nl;
         "  71^1 contributes 71 (0.0000000000%)" ++ nl ],
       Ok tt).
Proof.
  cbv zeta.
  split; [vm_compute; reflexivity |].
  split; [vm_compute; reflexivity |].
  unfold MonsterUtils.analyze_factorization.
  change (MonsterGroup.order MonsterGroup.__init__) with MonsterGroup.ORDER.
  rewrite Htotal. vm_compute. reflexivity.
Qed.

Lemma analyze_factorization_report_witness :
  MonsterUtils.stdout
    (MonsterUtils.analyze_factorization log10_floor pow_integral)
  = String.concat MonsterUtils.nl
      [ "Monster Group Prime Factorization Analysis";
        "=============================================";
        "";
        "Total order: 808,017,424,794,512,875,886,459,904,961,710,757,005,754,368,000,000,000 (≈ 8.08 × 10^53)";
        "";
        "Prime factorization: M = 2^46 × 3^20 × 5^9 × 7^6 × 11^2 × 13^3 × 17 × 19 × 23 × 29 × 31 × 41 × 47 × 59 × 71";
        "";
        "Number of distinct prime factors: 15";
        "Largest prime factor: 71";
        "Highest power: 46 (for prime 2)";
        "";
        "Contribution of each prime to the total order:";
        "  2^46 contributes 70,368,744,177,664 (0.0000000000%)";
        "  3^20 contributes 3,486,784,401 (0.0000000000%)";
        "  5^9 contributes 1,953,125 (0.0000000000%)";
        "  7^6 contributes 117,649 (0.0000000000%)";
        "  11^2 contributes 121 (0.0000000000%)";
        "  13^3 contributes 2,197 (0.0000000000%)";
        "  17^1 contributes 17 (0.0000000000%)";
        "  19^1 contributes 19 (0.0000000000%)";
        "  23^1 contributes 23 (0.0000000000%)";
        "  29^1 contributes 29 (0.0000000000%)";
        "  31^1 contributes 31 (0.0000000000%)";
        "  41^1 contributes 41 (0.0000000000%)";
        "  47^1 contributes 47 (0.0000000000%)";
        "  59^1 contributes 59 (0.0000000000%)";
        "  71^1 contributes 71 (0.0000000000%)";
        "" ].
Proof.
  pose proof (analyze_factorization_report log10_floor pow_integral
                "808,017,424,794,512,875,886,459,904,961,710,757,005,754,368,000,000,000 (≈ 8.08 × 10^53)"
                eq_refl) as H.
  cbv zeta in H. destruct H as (_ & _ & H).
  unfold MonsterUtils.stdout. rewrite H. vm_compute. reflexivity.
Defined.

(** * Further properties *)

(** ** Elements and their renderings *)

(** X1. The stored identifier is never empty, and building an element
    from the identifier of an element gives that element back; no
    argument, the empty string and ["e"] all build the identity. *)
Theorem element_id_never_empty (arg : option string) :
  MonsterElement.element_id (MonsterElement.__init__ arg) <> "" /\
  MonsterElement.__init__
    (Some (MonsterElement.element_id (MonsterElement.__init__ arg)))
  = MonsterElement.__init__ arg /\
  (MonsterElement.is_identity (MonsterElement.__init__ arg) = true <->
   arg = None \/ arg = Some "" \/ arg = Some "e").
Proof.
  unfold MonsterElement.is_identity.
  destruct arg as [[| c s] |];
    cbn [MonsterElement.__init__ MonsterElement.element_id];
    (split; [discriminate | split; [reflexivity |]]);
    rewrite String.eqb_eq.
  - split; auto.
  - split.
    + intros ->. auto.
    + intros [H | [H | H]]; try discriminate H. congruence.
  - split; auto.
Qed.

Lemma length_append (a b : string) :
  String.length (a ++ b) = (String.length a + String.length b)%nat.
Proof.
  induction a as [| c a IH]; simpl; [reflexivity | now rewrite IH].
Qed.

Lemma append_inj_l (a b c : string) : (a ++ b)%string = (a ++ c)%string -> b = c.
Proof.
  induction a as [| ch a IH]; simpl; intros H; [exact H |].
  injection H as H. now apply IH.
Qed.

Lemma append_inj_r (a b c : string) : (a ++ c)%string = (b ++ c)%string -> a = b.
Proof.
  revert b. induction a as [| ch a IH]; intros [| ch' b] H.
  - reflexivity.
  - apply (f_equal String.length) in H. simpl in H.
    rewrite length_append in H. lia.
  - apply (f_equal String.length) in H. simpl in H.
    rewrite length_append in H. lia.
  - simpl in H. injection H as -> H. f_equal. now apply IH.
Qed.

(** X2. Two elements print the same, with [str] or with [repr], exactly
    when they carry the same identifier: the identifier can be read back
    from the text. *)
Theorem element_text_determines_id (a b : MonsterElement.t) :
  (Rendering.MonsterElement__str__ a = Rendering.MonsterElement__str__ b <->
   MonsterElement.element_id a = MonsterElement.element_id b) /\
  (Rendering.MonsterElement__repr__ a = Rendering.MonsterElement__repr__ b <->
   MonsterElement.element_id a = MonsterElement.element_id b).
Proof.
  unfold Rendering.MonsterElement__str__, Rendering.MonsterElement__repr__.
  split; split; intros H; try (now rewrite H).
  - apply append_inj_l in H. now apply append_inj_r in H.
  - apply append_inj_l in H. now apply append_inj_r in H.
Qed.

(** ** The loop of [verify_order] on any table *)

Lemma product_app (l1 l2 : list (Z * Z)) :
  product (l1 ++ l2) = product l1 * product l2.
Proof.
  induction l1 as [| [p e] l1 IH].
  - change (product []) with 1. cbn [app]. ring.
  - cbn [app]. change (product ((p, e) :: l1 ++ l2)) with (p ^ e * product (l1 ++ l2)).
    change (product ((p, e) :: l1)) with (p ^ e * product l1).
    rewrite IH. ring.
Qed.

Lemma product_cons (p e : Z) (l : list (Z * Z)) :
  product ((p, e) :: l) = p ^ e * product l.
Proof. reflexivity. Qed.

Lemma product_pos (l : list (Z * Z)) :
  Forall (fun '(p, e) => 1 < p /\ 0 < e) l -> 0 < product l.
Proof.
  induction 1 as [| [p e] l [Hp He] _ IH]; simpl; [lia |].
  apply Z.mul_pos_pos; [apply Z.pow_pos_nonneg; lia | exact IH].
Qed.

(** X3. On any table of non-negative exponents the loop multiplies the
    starting value by the product of [prime ** power]: running it over two
    tables one after the other is running it over their concatenation,
    and the order of the two does not matter. *)
Theorem verify_loop_any_table (items1 items2 : list (Z * Z)) (acc : Z)
    (Hpow : Forall (fun item => 0 <= snd item) (items1 ++ items2)) :
  MonsterGroup.accumulate (items1 ++ items2) acc
    = MonsterGroup.accumulate items2 (MonsterGroup.accumulate items1 acc) /\
  MonsterGroup.accumulate (items1 ++ items2) acc
    = acc * (product items1 * product items2) /\
  MonsterGroup.accumulate (items2 ++ items1) acc
    = MonsterGroup.accumulate (items1 ++ items2) acc.
Proof.
  split; [| split].
  - unfold MonsterGroup.accumulate. apply fold_left_app.
  - now rewrite accumulate_product, product_app.
  - rewrite !accumulate_product, !product_app. ring.
Qed.

Lemma verify_loop_any_table_witness :
  MonsterGroup.accumulate ([(2, 3); (5, 0)] ++ [(7, 2)]) 1
  = MonsterGroup.accumulate ([(7, 2)] ++ [(2, 3); (5, 0)]) 1.
Proof.
  pose proof (verify_loop_any_table [(2, 3); (5, 0)] [(7, 2)] 1) as H.
  destruct H as (_ & _ & H).
  - repeat constructor; simpl; lia.
  - symmetry. exact H.
Defined.

(** X4. Every entry of the table counts: with the exponent of any one
    prime changed to another non-negative value, or with any one entry
    left out, the loop of [verify_order] no longer gives [ORDER]. *)
Theorem verify_order_detects_any_change
    (self : MonsterGroup.t) (l1 l2 : list (Z * Z)) (p e e' : Z)
    (Htable : MonsterGroup.get_factorization self = (l1 ++ (p, e) :: l2)%list)
    (Hnonneg : 0 <= e')
    (Hchanged : e' <> e) :
  (MonsterGroup.accumulate (l1 ++ (p, e') :: l2) 1 =? MonsterGroup.ORDER) = false /\
  (MonsterGroup.accumulate (l1 ++ l2) 1 =? MonsterGroup.ORDER) = false.
Proof.
  assert (Hall : Forall (fun '(p, e) => 1 < p /\ 0 < e)
                        (MonsterGroup.get_factorization self))
    by (repeat constructor).
  assert (Hord : MonsterGroup.accumulate (MonsterGroup.get_factorization self) 1
                 = MonsterGroup.ORDER) by (vm_compute; reflexivity).
  rewrite Htable in Hall, Hord.
  destruct (proj1 (Forall_app _ _ _) Hall) as [H1 H2].
  inversion H2 as [| item rest Hpe0 H2' Heq]; subst.
  cbn beta iota in Hpe0. destruct Hpe0 as [Hp He].
  pose proof (product_pos l1 H1) as P1.
  pose proof (product_pos l2 H2') as P2.
  rewrite accumulate_product, product_app, product_cons, Z.mul_1_l in Hord.
  assert (Hpe : 1 < p ^ e) by (apply Z.pow_gt_1; lia).
  assert (Hne : p ^ e' <> p ^ e).
  { intros Heq. apply Hchanged. apply (Z.pow_inj_r p); lia. }
  split; apply Z.eqb_neq;
    rewrite accumulate_product, product_app, ?product_cons, Z.mul_1_l,
      <- Hord; nia.
Qed.

Lemma verify_order_detects_any_change_witness :
  (MonsterGroup.accumulate
     ((2, 45) :: tl (MonsterGroup.get_factorization MonsterGroup.__init__)) 1
   =? MonsterGroup.ORDER) = false /\
  (MonsterGroup.accumulate
     (tl (MonsterGroup.get_factorization MonsterGroup.__init__)) 1
   =? MonsterGroup.ORDER) = false.
Proof.
  exact (verify_order_detects_any_change MonsterGroup.__init__ []
           (tl (MonsterGroup.get_factorization MonsterGroup.__init__))
           2 46 45 eq_refl ltac:(lia) ltac:(lia)).
Defined.

(** ** [demonstrate_monster_group] *)

(** X5. [demonstrate_monster_group] raises nothing; it writes the
    group's rendering and order, the two flags, the 194 classes, the
    verification [True], the 15 prime powers in table order, the first
    five maximal subgroups, three fields of the character table, and the
    identity with its order and class. *)
Theorem demonstrate_monster_group_runs :
  snd Rendering.demonstrate_monster_group = Ok tt /\
  MonsterUtils.stdout Rendering.demonstrate_monster_group
  = String.concat MonsterUtils.nl
      [ "Monster Group Demonstration";
        "==============================";
        "Group: Monster Group (M) - Order: 808017424794512875886459904961710757005754368000000000";
        "Order: 808,017,424,794,512,875,886,459,904,961,710,757,005,754,368,000,000,000";
        "Is sporadic: True";
        "Is simple: True";
        "Conjugacy classes: 194";
        "";
        "Order verification: True";
        "";
        "Prime factorization:";
        "  2^46"; "  3^20"; "  5^9"; "  7^6"; "  11^2"; "  13^3"; "  17^1";
        "  19^1"; "  23^1"; "  29^1"; "  31^1"; "  41^1"; "  47^1"; "  59^1";
        "  71^1";
        "";
        "Some maximal subgroups:";
        "  2^1+24.Co1 (Baby Monster normalizer)";
        "  2^2+11+22.(M24 × S3)";
        "  3^1+12.2.Suz.2";
        "  2^5+10+20.(S3 × L5(2))";
        "  5^1+6.2.J2.4";
        "";
        "Character table info:";
        "  Irreducible representations: 194";
        "  Smallest faithful representation: 196883";
        "  Moonshine connection: True";
        "";
        "Monster group elements:";
        "  Identity: MonsterElement(e)";
        "  Identity order: 1";
        "  Identity conjugacy class: 1A";
        "" ].
Proof.
  split; vm_compute; reflexivity.
Qed.

(** ** The loops of [compare_group_orders] on any reference table *)

Lemma compare_dict_cons (monster_order : Z) (name : string) (order : Z)
    (rest : list (string * Z)) (comparisons : list MonsterUtils.triple) :
  MonsterUtils.compare_dict monster_order ((name, order) :: rest) comparisons
  = (t <- Report.compare_one_group monster_order name order ;;
     MonsterUtils.compare_dict monster_order rest (comparisons ++ [t])%list).
Proof.
  cbn [MonsterUtils.compare_dict]. unfold Report.compare_one_group.
  destruct (MonsterUtils.ratio_of monster_order order) as [ratio | e];
    [| reflexivity].
  cbn [bind]. destruct (MonsterUtils.describe ratio); reflexivity.
Qed.

Lemma compare_dict_app (monster_order : Z) (items1 items2 : list (string * Z)) :
  forall comparisons,
    MonsterUtils.compare_dict monster_order (items1 ++ items2) comparisons
    = (comparisons' <- MonsterUtils.compare_dict monster_order items1 comparisons ;;
       MonsterUtils.compare_dict monster_order items2 comparisons').
Proof.
  induction items1 as [| [name order] items1 IH]; intros comparisons.
  - reflexivity.
  - cbn [app]. rewrite !compare_dict_cons.
    destruct (Report.compare_one_group monster_order name order); cbn [bind];
      [apply IH | reflexivity].
Qed.

(** X6. For any Monster order and any table of reference groups, a
    comparison that completes returns one triple per reference, in the
    order the references are written in, with each name and order copied
    unchanged. *)
Theorem compare_groups_keeps_input_order
    (monster_order : Z) (gs : list (string * list (string * Z)))
    (result : list MonsterUtils.triple)
    (Hok : MonsterUtils.compare_groups monster_order gs [] = Ok result) :
  map name_and_order result = flat_map snd gs /\
  List.length result = List.length (flat_map snd gs).
Proof.
  destruct (compare_groups_in_order monster_order gs [] result Hok)
    as (added & -> & Hmap).
  cbn [app]. split; [exact Hmap |].
  rewrite <- Hmap. now rewrite length_map.
Qed.

Lemma compare_groups_keeps_input_order_witness :
  map name_and_order
    [ ("A", 120, "Monster is 6.73e+51 times larger");
      ("B", MonsterGroup.ORDER, "Same as Monster") ]
  = [ ("A", 120); ("B", MonsterGroup.ORDER) ].
Proof.
  exact (proj1 (compare_groups_keeps_input_order MonsterGroup.ORDER
                  [ ("first", [("A", 120)]);
                    ("second", [("B", MonsterGroup.ORDER)]) ]
                  [ ("A", 120, "Monster is 6.73e+51 times larger");
                    ("B", MonsterGroup.ORDER, "Same as Monster") ]
                  eq_refl)).
Defined.

(** X7. A reference group of order 0 makes the comparison raise
    [ZeroDivisionError], whatever comes after it in the table; the
    triples built for the references before it are not returned. *)
Theorem compare_dict_zero_order
    (monster_order : Z) (items1 items2 : list (string * Z)) (name : string)
    (comparisons comparisons' : list MonsterUtils.triple)
    (Hmonster : monster_order <> 0)
    (Hbefore : MonsterUtils.compare_dict monster_order items1 comparisons
               = Ok comparisons') :
  MonsterUtils.compare_dict monster_order (items1 ++ (name, 0) :: items2)
    comparisons
  = Raise ZeroDivisionError.
Proof.
  rewrite compare_dict_app, Hbefore. cbn [bind].
  rewrite compare_dict_cons. unfold Report.compare_one_group,
    MonsterUtils.ratio_of, Float.int_true_divide.
  destruct (0 =? monster_order) eqn:E; [apply Z.eqb_eq in E; lia |].
  reflexivity.
Qed.

Lemma compare_dict_zero_order_witness :
  MonsterUtils.compare_dict MonsterGroup.ORDER
    ([("S_5", 120)] ++ ("trivial", 0) :: [("Monster M", MonsterGroup.ORDER)]) []
  = Raise ZeroDivisionError.
Proof.
  apply (compare_dict_zero_order MonsterGroup.ORDER [("S_5", 120)]
           [("Monster M", MonsterGroup.ORDER)] "trivial" []
           [("S_5", 120, "Monster is 6.73e+51 times larger")]).
  - discriminate.
  - vm_compute. reflexivity.
Defined.

(** X8. Whatever the Monster order is, zero included, a reference with
    that same order is given the ratio [1] without any division and the
    description ["Same as Monster"]. *)
Theorem equal_order_is_same_as_monster (monster_order : Z) (name : string) :
  MonsterUtils.ratio_of monster_order monster_order = Ok (MonsterUtils.PInt 1) /\
  Report.compare_one_group monster_order name monster_order
  = Ok (name, monster_order, "Same as Monster").
Proof.
  unfold Report.compare_one_group, MonsterUtils.ratio_of.
  rewrite Z.eqb_refl. split; reflexivity.
Qed.

(** X9. At the edges of the three-way rule, for the real Monster order:
    the order one above it is also ["Same as Monster"], the quotient
    rounding to [1.0]; twice the order is [2.00e+00] times smaller; a
    reference so large that the quotient underflows to [0.0] raises
    [ZeroDivisionError] in [1/ratio]; one whose quotient is subnormal is
    [inf] times smaller; and a negative order falls in the last branch. *)
Theorem compare_one_group_edges (name : string) :
  let M := MonsterGroup.ORDER in
  Report.compare_one_group M name (M + 1) = Ok (name, M + 1, "Same as Monster") /\
  Report.compare_one_group M name (2 * M)
    = Ok (name, 2 * M, "Monster is 2.00e+00 times smaller") /\
  Report.compare_one_group M name (10 ^ 400) = Raise ZeroDivisionError /\
  Report.compare_one_group M name (10 ^ 370)
    = Ok (name, 10 ^ 370, "Monster is inf times smaller") /\
  Report.compare_one_group M name (-5)
    = Ok (name, -5, "Monster is -6.19e-54 times smaller").
Proof.
  cbv zeta. repeat (split; [vm_compute; reflexivity |]).
  vm_compute; reflexivity.
Qed.

(** ** The ["Highest power"] line on any table *)

Lemma fold_left_max (l : list Z) (x : Z) :
  x <= fold_left Z.max l x /\
  Forall (fun y => y <= fold_left Z.max l x) l /\
  In (fold_left Z.max l x) (x :: l).
Proof.
  revert x. induction l as [| y l IH]; intros x; cbn [fold_left].
  - split; [lia | split; [constructor | now left]].
  - destruct (IH (Z.max x y)) as (H1 & H2 & H3).
    split; [lia | split].
    + constructor; [lia | exact H2].
    + destruct H3 as [H3 | H3]; [| right; now right].
      rewrite <- H3. destruct (Z.max_spec x y) as [[_ ->] | [_ ->]];
        [right; now left | now left].
Qed.

Lemma filter_first {A : Type} (pred : A -> bool) (l : list A) (x : A) :
  In x l -> pred x = true ->
  exists l1 y l2,
    l = (l1 ++ y :: l2)%list /\ pred y = true /\
    Forall (fun z => pred z = false) l1 /\
    filter pred l = y :: filter pred l2.
Proof.
  induction l as [| a l IH]; intros Hin Hx; [contradiction |].
  destruct (pred a) eqn:Ea.
  - exists [], a, l. cbn [app filter]. rewrite Ea. auto.
  - destruct Hin as [-> | Hin]; [congruence |].
    destruct (IH Hin Hx) as (l1 & y & l2 & -> & Hy & Hall & Hf).
    exists (a :: l1), y, l2. cbn [app filter]. rewrite Ea.
    repeat split; auto.
Qed.

(** X10. On an empty table the ["Highest power"] line raises
    [ValueError] from [max]. On any other table it raises nothing: the
    power it reports is the largest exponent, and the prime it reports is
    the first entry of the table, in dict order, that has that exponent. *)
Theorem highest_power_first_maximum (factorization : list (Z * Z)) :
  (factorization = [] ->
   Report.highest_power factorization = Raise ValueError) /\
  (factorization <> [] ->
   exists highest p l1 l2,
     Report.highest_power factorization = Ok (highest, p) /\
     factorization = (l1 ++ (p, highest) :: l2)%list /\
     Forall (fun item => snd item < highest) l1 /\
     Forall (fun item => snd item <= highest) l2).
Proof.
  split; [intros ->; reflexivity |].
  intros Hne. destruct factorization as [| [p0 e0] rest]; [contradiction |].
  unfold Report.highest_power, MonsterGroup.values, MonsterUtils.max.
  cbn [map snd bind].
  set (highest := fold_left Z.max (map snd rest) e0).
  destruct (fold_left_max (map snd rest) e0) as (H0 & Hall & Hin).
  fold highest in H0, Hall, Hin.
  assert (Hle : Forall (fun item : Z * Z => snd item <= highest)
                       ((p0, e0) :: rest)).
  { constructor; [exact H0 |]. rewrite Forall_forall in *.
    intros item Hitem. apply Hall. now apply in_map. }
  assert (Hex : exists item, In item ((p0, e0) :: rest) /\ snd item = highest).
  { change (e0 :: map snd rest) with (map snd ((p0, e0) :: rest)) in Hin.
    apply in_map_iff in Hin. destruct Hin as (item & Hs & Hi). eauto. }
  destruct Hex as ([q f] & Hi & Hs). cbn [snd] in Hs.
  destruct (filter_first (fun '(p, pow) => pow =? highest) _ (q, f) Hi)
    as (l1 & [p e] & l2 & Heq & Hp & Hl1 & Hf);
    [now apply Z.eqb_eq |].
  apply Z.eqb_eq in Hp. subst e.
  exists highest, p, l1, l2. rewrite Hf. cbn [map fst MonsterUtils.first bind].
  split; [reflexivity |]. split; [exact Heq |].
  rewrite Heq in Hle. destruct (proj1 (Forall_app _ _ _) Hle) as [Hle1 Hle2].
  split.
  - rewrite Forall_forall in *. intros [a b] Hab.
    specialize (Hl1 _ Hab). specialize (Hle1 _ Hab). cbn in *.
    apply Z.eqb_neq in Hl1. lia.
  - now inversion Hle2.
Qed.

Example highest_power_of_the_table :
  Report.highest_power (MonsterGroup.get_factorization MonsterGroup.__init__)
  = Ok (46, 2).
Proof. reflexivity. Qed.

(** ** The contribution loop on any table *)

Lemma In_insert_sorted {A : Type} (leb : A -> A -> bool) (x y : A) (l : list A) :
  In y (MonsterUtils.insert_sorted leb x l) -> y = x \/ In y l.
Proof.
  induction l as [| a l IH]; cbn [MonsterUtils.insert_sorted].
  - intros [-> | []]. now left.
  - destruct (leb x a).
    + intros [-> | H]; [now left | now right].
    + intros [-> | H]; [right; now left |].
      destruct (IH H) as [-> | H']; [now left | right; now right].
Qed.

Lemma In_sorted {A : Type} (leb : A -> A -> bool) (y : A) (l : list A) :
  In y (MonsterUtils.sorted leb l) -> In y l.
Proof.
  induction l as [| a l IH]; cbn; [auto |].
  intros H. apply In_insert_sorted in H. destruct H as [-> | H]; auto.
Qed.

Lemma getitem_of_key (d : list (Z * Z)) (key : Z) :
  In key (MonsterGroup.keys d) -> exists v, MonsterUtils.getitem d key = Ok v.
Proof.
  induction d as [| [k v] d IH]; cbn; [contradiction |].
  intros [-> | H].
  - rewrite Z.eqb_refl. eauto.
  - destruct (k =? key); eauto.
Qed.

Lemma for_each_outcome {A : Type} (P : result unit -> Prop) (l : list A)
    (body : A -> MonsterUtils.io unit) :
  P (Ok tt) ->
  (forall x, In x l -> P (snd (body x))) ->
  P (snd (MonsterUtils.for_each l body)).
Proof.
  intros HP. induction l as [| a l IH]; intros H; cbn [MonsterUtils.for_each].
  - exact HP.
  - unfold MonsterUtils.io_bind.
    pose proof (H a (or_introl eq_refl)) as Ha.
    destruct (body a) as [w [[] | e]].
    + destruct (MonsterUtils.for_each l body) as [w' r] eqn:El.
      cbn [snd] in *. apply IH. intros x Hx. apply H. now right.
    + exact Ha.
Qed.

Lemma getitem_In (d : list (Z * Z)) (key v : Z) :
  MonsterUtils.getitem d key = Ok v -> In (key, v) d.
Proof.
  induction d as [| [k w] d IH]; cbn; [discriminate |].
  destruct (k =? key) eqn:E.
  - apply Z.eqb_eq in E. intros H. injection H as <-. subst. now left.
  - intros H. right. now apply IH.
Qed.

(** X11. For any table of non-negative exponents and any total order
    other than 0, the loop over the sorted keys finds every key it looks
    up and divides by a non-zero number: it ends normally, with
    [OverflowError] when a quotient is too large for a float, or with
    [ValueError] when a prime, an exponent or a contribution has more
    than 4300 digits; never with [KeyError] or [ZeroDivisionError]. When
    all of these have at most 4300 digits, [ValueError] is excluded
    too. *)
Theorem contribution_loop_lookups_succeed
    (factorization : list (Z * Z)) (total_order : Z)
    (Htotal : total_order <> 0)
    (Hpow : Forall (fun item => 0 <= snd item) factorization) :
  let loop :=
    MonsterUtils.for_each
      (MonsterUtils.sorted Z.leb (MonsterGroup.keys factorization))
      (Checked.contribution_line factorization total_order) in
  (snd loop = Ok tt \/ snd loop = Raise OverflowError \/
   snd loop = Raise ValueError) /\
  (Forall (fun item =>
             Checked.fits (fst item) = true /\
             Checked.fits (snd item) = true /\
             Checked.fits (fst item ^ snd item) = true) factorization ->
   snd loop = Ok tt \/ snd loop = Raise OverflowError).
Proof.
  cbv zeta.
  assert (Hstep : forall prime,
            In prime (MonsterUtils.sorted Z.leb (MonsterGroup.keys factorization)) ->
            exists power,
              In (prime, power) factorization /\
              let r := snd (Checked.contribution_line factorization
                              total_order prime) in
              (r = Ok tt \/ r = Raise OverflowError \/ r = Raise ValueError) /\
              (Checked.fits prime = true -> Checked.fits power = true ->
               Checked.fits (prime ^ power) = true ->
               r = Ok tt \/ r = Raise OverflowError)).
  { intros prime Hin. apply In_sorted in Hin.
    destruct (getitem_of_key factorization prime Hin) as (power & Hget).
    exists power. split; [now apply getitem_In |].
    unfold Checked.contribution_line, MonsterUtils.io_bind,
      MonsterUtils.lift, MonsterUtils.print, MonsterUtils.print_end,
      Checked.str_checked, Checked.format_comma_checked.
    rewrite Hget. unfold Float.int_true_divide.
    destruct (total_order =? 0) eqn:E; [apply Z.eqb_eq in E; contradiction |].
    destruct (SFdiv Float.prec Float.emax (Float.exact (prime ^ power))
                (Float.exact total_order));
      destruct (Checked.fits prime), (Checked.fits power),
        (Checked.fits (prime ^ power));
      cbn; split; auto; intros; discriminate. }
  split.
  - apply (for_each_outcome
             (fun r => r = Ok tt \/ r = Raise OverflowError \/
                       r = Raise ValueError)); [now left |].
    intros prime Hin. destruct (Hstep prime Hin) as (power & _ & H & _).
    exact H.
  - intros Hfits.
    apply (for_each_outcome
             (fun r => r = Ok tt \/ r = Raise OverflowError)); [now left |].
    intros prime Hin. destruct (Hstep prime Hin) as (power & Hmem & _ & H).
    rewrite Forall_forall in Hfits.
    destruct (Hfits _ Hmem) as (H1 & H2 & H3). now apply H.
Qed.

Lemma contribution_loop_lookups_succeed_witness :
  let loop :=
    MonsterUtils.for_each
      (MonsterUtils.sorted Z.leb (MonsterGroup.keys [(7, 2); (3, 0); (5, 1)]))
      (Checked.contribution_line [(7, 2); (3, 0); (5, 1)] 735) in
  snd loop = Ok tt \/ snd loop = Raise OverflowError.
Proof.
  apply (proj2 (contribution_loop_lookups_succeed [(7, 2); (3, 0); (5, 1)] 735
                  ltac:(lia)
                  ltac:(repeat constructor; simpl; lia))).
  repeat constructor; apply fits_small; reflexivity.
Defined.

(** ** [main] and [demonstrate_utilities] *)

(** X12. Once the order is formatted, [main] of [example.py] raises
    nothing and writes its six sections; in the last one, of the three
    final comparisons it prints Conway Co_1 and Baby Monster B and skips
    the Monster's own entry, whose description contains ["Same"]. *)
Theorem main_runs
    (libm_log10 : Float.float -> Float.float)
    (libm_pow : Float.float -> Float.float -> Float.float)
    (total : string)
    (Htotal : MonsterUtils.format_large_number libm_log10 libm_pow
                MonsterGroup.ORDER = Ok total) :
  let nl := MonsterUtils.nl in
  ExampleMain.main libm_log10 libm_pow
  = (map (fun line => line ++ nl)
       [ "Monster Group Implementation Example";
         "========================================";
         nl ++ "1. Creating and exploring the Monster group:";
         "   Name: Monster";
         "   Symbol: M";
         "   Order: " ++ total;
         "   Is simple: True";
         "   Is sporadic: True";
         nl ++ "2. Working with Monster group elements:";
         "   Identity element: MonsterElement(e)";
         "   Identity is identity: True";
         "   Identity order: 1";
         "   General element: MonsterElement(g)";
         "   General element is identity: False";
         nl ++ "3. Prime factorization verification:";
         "   Number of distinct primes: 15";
         "   Largest prime: 71";
         "   Order verification: True";
         nl ++ "4. Mathematical properties:";
         "   Conjugacy classes: 194";
         "   Irreducible representations: 194";
         "   Smallest faithful representation: 196883";
         nl ++ "5. Monstrous Moonshine connection:";
         "   Monstrous moonshine is a connection between the Monster group and modular functions";
         "   Key insight: The coefficient 196884 = 196883 + 1, where 196883 is the dimension of the smallest faithful representation of M";
         nl ++ "6. Size comparison with other groups:";
         "   Conway Co_1: Monster is 1.94e+35 times larger";
         "   Baby Monster B: Monster is 1.94e+20 times larger";
         nl ++ "========================================";
         "Example completed successfully!" ],
     Ok tt).
Proof.
  cbv zeta. unfold ExampleMain.main.
  change (MonsterGroup.order MonsterGroup.__init__) with MonsterGroup.ORDER.
  rewrite Htotal. vm_compute. reflexivity.
Qed.

Lemma main_runs_witness :
  snd (ExampleMain.main log10_floor pow_integral) = Ok tt /\
  List.length (fst (ExampleMain.main log10_floor pow_integral)) = 30%nat.
Proof.
  pose proof (main_runs log10_floor pow_integral
                "808,017,424,794,512,875,886,459,904,961,710,757,005,754,368,000,000,000 (≈ 8.08 × 10^53)"
                eq_refl) as H.
  cbv zeta in H. rewrite H. split; reflexivity.
Defined.

(** X13. Once the order is formatted, [demonstrate_utilities] raises
    nothing: it writes the order, all seven comparisons ([[:8]] of a list
    of seven) with their orders comma-grouped, three moonshine fields, and
    then everything [analyze_factorization] writes. *)
Theorem demonstrate_utilities_runs
    (libm_log10 : Float.float -> Float.float)
    (libm_pow : Float.float -> Float.float -> Float.float)
    (total : string)
    (Htotal : MonsterUtils.format_large_number libm_log10 libm_pow
                MonsterGroup.ORDER = Ok total) :
  let nl := MonsterUtils.nl in
  ExampleMain.demonstrate_utilities libm_log10 libm_pow
  = (List.app
       (map (fun line => line ++ nl)
        [ "Monster Group Utilities Demonstration";
          "========================================";
          nl ++ "Monster group order: " ++ total;
          nl ++ "Group Order Comparisons:";
          "  S_5: 120";
          "    Monster is 6.73e+51 times larger";
          "  S_10: 3,628,800";
          "    Monster is 2.23e+47 times larger";
          "  S_20: 2,432,902,008,176,640,000";
          "    Monster is 3.32e+35 times larger";
          "  Mathieu M_24: 244,823,040";
          "    Monster is 3.30e+45 times larger";
          "  Conway Co_1: 4,157,776,806,543,360,000";
          "    Monster is 1.94e+35 times larger";
          "  Baby Monster B: 4,154,781,481,226,426,191,177,580,544,000,000";
          "    Monster is 1.94e+20 times larger";
          "  Monster M: 808,017,424,794,512,875,886,459,904,961,710,757,005,754,368,000,000,000";
          "    Same as Monster";
          nl ++ "Monstrous Moonshine:";
          "  Monstrous moonshine is a connection between the Monster group and modular functions";
          "  J-invariant: j(τ) = q^(-1) + 744 + 196884q + 21493760q^2 + ...";
          "  Significance: The coefficient 196884 = 196883 + 1, where 196883 is the dimension of the smallest faithful representation of M";
          nl ])
       (fst (MonsterUtils.analyze_factorization libm_log10 libm_pow)),
     Ok tt).
Proof.
  cbv zeta.
  unfold ExampleMain.demonstrate_utilities, MonsterUtils.analyze_factorization.
  change (MonsterGroup.order MonsterGroup.__init__) with MonsterGroup.ORDER.
  rewrite Htotal. vm_compute. reflexivity.
Qed.

Lemma demonstrate_utilities_runs_witness :
  snd (ExampleMain.demonstrate_utilities log10_floor pow_integral) = Ok tt.
Proof.
  pose proof (demonstrate_utilities_runs log10_floor pow_integral
                "808,017,424,794,512,875,886,459,904,961,710,757,005,754,368,000,000,000 (≈ 8.08 × 10^53)"
                eq_refl) as H.
  cbv zeta in H. rewrite H. reflexivity.
Defined.

(** ** More of [format_large_number] *)

(** X14. The mantissa is not kept below 10: for 9996 to 9999, when the
    library's [log10] truncates to 3, the quotient rounds to two decimals
    as [10.00] and the scientific part reads [10.00 × 10^3]. *)
Theorem mantissa_can_print_as_ten
    (libm_log10 : Float.float -> Float.float)
    (libm_pow : Float.float -> Float.float -> Float.float)
    (n : Z)
    (Hn : 9996 <= n <= 9999)
    (Hexp : Float.to_int (libm_log10 (MonsterUtils.literal n)) = Ok 3) :
  MonsterUtils.format_large_number libm_log10 libm_pow n
  = Ok (format_comma n ++ " (≈ 10.00 × 10^3)").
Proof.
  assert (Hcases : n = 9996 \/ n = 9997 \/ n = 9998 \/ n = 9999) by lia.
  unfold MonsterUtils.format_large_number, MonsterUtils.scientific.
  destruct Hcases as [-> | [-> | [-> | ->]]];
    (match goal with
     | |- context [MonsterUtils.exponent_of _ ?k] =>
         rewrite (exponent_of_float libm_log10 k (MonsterUtils.literal k))
           by (reflexivity || lia)
     end;
     change (0 <? _) with true; cbv iota; rewrite Hexp;
     vm_compute; reflexivity).
Qed.

Lemma mantissa_can_print_as_ten_witness :
  MonsterUtils.format_large_number log10_floor pow_integral 9999
  = Ok "9,999 (≈ 10.00 × 10^3)".
Proof.
  exact (mantissa_can_print_as_ten log10_floor pow_integral 9999
           ltac:(lia) eq_refl).
Defined.

(** ** [verify_order] and the dicts handed out before *)



(** ** What the renderings contain *)

Lemma prefix_append (a b : string) : String.prefix a (a ++ b) = true.
Proof.
  induction a as [| c a IH]; cbn; [destruct b; reflexivity |].
  destruct (ascii_dec c c) as [_ | Hne]; [exact IH | contradiction].
Qed.

Lemma contains_middle (needle before after : string) :
  ExampleMain.contains needle (before ++ needle ++ after) = true.
Proof.
  induction before as [| c before IH].
  - cbn [append]. destruct (needle ++ after) eqn:E;
      cbn [ExampleMain.contains]; rewrite <- E, prefix_append; reflexivity.
  - cbn [append ExampleMain.contains]. rewrite IH. apply orb_true_r.
Qed.

(** X16. Whatever the identifier, the [str] and the [repr] of an element
    contain the class name and the stored identifier; the [str] and the
    [repr] of the group contain ["Monster Group"] and ["MonsterGroup"]. *)
Theorem renderings_contain_names (arg : option string) (self : MonsterGroup.t) :
  let el := MonsterElement.__init__ arg in
  ExampleMain.contains "MonsterElement" (Rendering.MonsterElement__str__ el) = true /\
  ExampleMain.contains (MonsterElement.element_id el)
    (Rendering.MonsterElement__str__ el) = true /\
  ExampleMain.contains "MonsterElement" (Rendering.MonsterElement__repr__ el) = true /\
  ExampleMain.contains (MonsterElement.element_id el)
    (Rendering.MonsterElement__repr__ el) = true /\
  ExampleMain.contains "Monster Group" (Rendering.MonsterGroup__str__ self) = true /\
  ExampleMain.contains "MonsterGroup" (Rendering.MonsterGroup__repr__ self) = true.
Proof.
  cbv zeta.
  unfold Rendering.MonsterElement__str__, Rendering.MonsterElement__repr__.
  split; [apply (contains_middle "MonsterElement" "") |].
  split; [apply contains_middle |].
  split; [apply (contains_middle "MonsterElement" "") |].
  split; [apply contains_middle |].
  split; vm_compute; reflexivity.
Qed.
